(** * LG SW49410 rev1 MIPI-DSI panel: lifecycle, command batches, backlight

    A shallow embedding of drivers/gpu/drm/panel/panel-lg-sw49410-rev1.c.

    The driver is sequential C that mutates one [struct panel_info] and talks
    to the hardware through kernel leaf interfaces (regulators, pinctrl, the
    reset GPIO, the DSI command channel, sleeps).  It is
    embedded as a state monad over a [world]: the fields of [panel_info] the
    code reads or writes, and the chronological [trace] of leaf calls issued
    so far.  The result of a fallible leaf call is chosen by an environment
    [env], a function of the whole history up to and including that call, so
    that any pattern of hardware failures can be expressed.

    Kernel log output (pr_err, dev_err, DRM_DEV_ERROR, print_hex_dump) is not
    hardware I/O and is left out of the trace.  C [int] results are integers
    of [Z]; [char] is unsigned, as on the arm64 targets of this driver. *)

From Stdlib Require Import ZArith List Bool Lia.
From Stdlib.Strings Require Import Byte.
Import ListNotations.
Local Open Scope Z_scope.

(** ** Constants of kernel headers that are not part of the driver file

    The driver uses these names from <video/mipi_display.h>,
    <drm/drm_mipi_dsi.h>, <linux/fb.h>, <linux/backlight.h> and
    <linux/errno.h>.  Their values are taken as parameters: nothing proved
    below depends on them. *)
Class kernel_headers := {
  MIPI_DCS_ENTER_NORMAL_MODE : byte;
  MIPI_DCS_WRITE_CONTROL_DISPLAY : byte;
  MIPI_DCS_WRITE_POWER_SAVE : byte;
  MIPI_DCS_SET_CABC_MIN_BRIGHTNESS : byte;
  MIPI_DSI_COMPRESSION_MODE : byte;
  MIPI_DSI_DCS_TEAR_MODE_VBLANK : Z;
  FB_BLANK_UNBLANK : Z;
  BL_CORE_FBBLANK : Z;
  EFAULT : Z
}.

(** ** Data model *)

(** [struct panel_cmd]: [len] is a [size_t], [data] the bytes behind the
    [const char *]. *)
Record panel_cmd := { len : Z; data : list byte }.

(** [_INIT_CMD(...)]: [len] is the size of the byte array literal. *)
Definition _INIT_CMD (bytes : list byte) : panel_cmd :=
  {| len := Z.of_nat (length bytes); data := bytes |}.

(** The [{}] entry that ends a command table. *)
Definition sentinel : panel_cmd := {| len := 0; data := [] |}.

Definition regulator_names : list (list byte) :=
  [ [x76; x64; x64; x69; x6f] ].   (* "vddio" *)

Definition regulator_enable_loads : list Z := [1700000].

Definition regulator_disable_loads : list Z := [100].

(** The fields of [bl->props] read by the backlight callback. *)
Record backlight_properties := {
  props_brightness : Z;  (* int *)
  props_power : Z;       (* int *)
  props_fb_blank : Z;    (* int *)
  props_state : Z        (* unsigned int *)
}.

(** The fields of [struct panel_info] that the modelled functions use;
    [backlight] holds the props of the device behind the pointer
    [pinfo->backlight]. *)
Record panel_info := {
  backlight : backlight_properties;
  brightness : Z;        (* u32 *)
  max_brightness : Z;    (* u32 *)
  init_delay_us : Z;     (* u32 *)
  prepared : bool;
  enabled : bool;
  first_enable : bool
}.

Inductive pinctrl_state := panel_active | panel_suspend.

(** Leaf calls into the kernel, each on the one link, reset line, pinctrl
    handle and supply array the panel owns. *)
Inductive event :=
| regulator_set_load (i : nat) (load_uA : Z)
| regulator_bulk_enable
| regulator_bulk_disable
| pinctrl_select_state (state : pinctrl_state)
| gpiod_set_value (value : Z)
| usleep_range (min max : Z)
| msleep (msecs : Z)
| mipi_dsi_dcs_write (cmd : byte) (payload : list byte)
| mipi_dsi_dcs_write_buffer (d : list byte)
| mipi_dsi_dcs_set_tear_on (mode : Z)
| mipi_dsi_dcs_set_page_address (first last : Z)
| mipi_dsi_dcs_set_display_brightness (value : Z)
| mipi_dsi_dcs_exit_sleep_mode
| mipi_dsi_dcs_set_display_on.

Record world := { pinfo : panel_info; trace : list event }.

(** ** The state monad of the driver *)

Definition M (A : Type) : Type := world -> A * world.

Definition ret {A} (a : A) : M A := fun w => (a, w).

Definition bind {A B} (m : M A) (k : A -> M B) : M B :=
  fun w => let (a, w') := m w in k a w'.

Notation "x <- m ;; k" := (bind m (fun x => k))
  (at level 61, m at next level, right associativity).
Notation "m ;;; k" := (bind m (fun _ => k))
  (at level 61, right associativity).

Definition gets {A} (f : panel_info -> A) : M A := fun w => (f (pinfo w), w).

Definition modify (f : panel_info -> panel_info) : M unit :=
  fun w => (tt, {| pinfo := f (pinfo w); trace := trace w |}).

Definition set_first_enable (b : bool) (p : panel_info) : panel_info :=
  {| backlight := backlight p;
     brightness := brightness p; max_brightness := max_brightness p;
     init_delay_us := init_delay_us p; prepared := prepared p;
     enabled := enabled p; first_enable := b |}.

Definition set_prepared (b : bool) (p : panel_info) : panel_info :=
  {| backlight := backlight p;
     brightness := brightness p; max_brightness := max_brightness p;
     init_delay_us := init_delay_us p; prepared := b;
     enabled := enabled p; first_enable := first_enable p |}.

Definition set_enabled (b : bool) (p : panel_info) : panel_info :=
  {| backlight := backlight p;
     brightness := brightness p; max_brightness := max_brightness p;
     init_delay_us := init_delay_us p; prepared := prepared p;
     enabled := b; first_enable := first_enable p |}.

Definition set_brightness (v : Z) (p : panel_info) : panel_info :=
  {| backlight := backlight p;
     brightness := v; max_brightness := max_brightness p;
     init_delay_us := init_delay_us p; prepared := prepared p;
     enabled := enabled p; first_enable := first_enable p |}.

Definition set_backlight (bl : backlight_properties) (p : panel_info) : panel_info :=
  {| backlight := bl;
     brightness := brightness p; max_brightness := max_brightness p;
     init_delay_us := init_delay_us p; prepared := prepared p;
     enabled := enabled p; first_enable := first_enable p |}.

Definition u8 (b : byte) : Z := Z.of_N (Byte.to_N b).

Definition u16 (v : Z) : Z := v mod 2 ^ 16.

Definition u32 (v : Z) : Z := v mod 2 ^ 32.

Definition size_t (v : Z) : Z := v mod 2 ^ 64.

(** What the loop body of [send_mipi_cmds] reads from one entry: [data[1]],
    then either nothing ([len == 2]) or the [len - 2] bytes from [data + 2]
    (the subtraction is on [size_t]), then [data[0]].  [None] when a read
    falls outside the bytes behind [data]. *)
Definition cmd_operands (cmd : panel_cmd) : option (byte * list byte * byte) :=
  match data cmd with
  | d0 :: d1 :: rest =>
      if len cmd =? 2 then Some (d1, [], d0)
      else
        let n := size_t (len cmd - 2) in
        if n <=? Z.of_nat (length rest)
        then Some (d1, firstn (Z.to_nat n) rest, d0)
        else None
  | _ => None
  end.

Section Driver.

Context {hdr : kernel_headers}.

(** The environment: the value a fallible leaf call returns, given the
    history that ends with that call. *)
Variable env : list event -> Z.

(** A leaf call that returns a status. *)
Definition call (e : event) : M Z :=
  fun w => let tr := trace w ++ [e] in (env tr, {| pinfo := pinfo w; trace := tr |}).

(** A leaf call that returns nothing. *)
Definition emit (e : event) : M unit :=
  fun w => (tt, {| pinfo := pinfo w; trace := trace w ++ [e] |}).

(** The [for] loops over [pinfo->supplies], which has one slot per entry of
    [regulator_names], as both load tables have: one [regulator_set_load]
    per supply [i] with [loads[i]], leaving at the first non-zero status
    (returned here; 0 when the loop runs to its end). *)
Fixpoint set_loads (i : nat) (loads : list Z) : M Z :=
  match loads with
  | [] => ret 0
  | l :: rest =>
      r <- call (regulator_set_load i l) ;;
      if r =? 0 then set_loads (S i) rest else ret r
  end.

(** The reset sequence that ends both [panel_reset_at_beginning] and
    [lg_panel_power_on]. *)
Definition reset_pulse : M unit :=
  emit (gpiod_set_value 1) ;;;
  emit (usleep_range 30000 10000) ;;;
  emit (gpiod_set_value 0) ;;;
  emit (usleep_range 30000 2000) ;;;
  emit (gpiod_set_value 1) ;;;
  emit (usleep_range 30000 10000).

Definition panel_reset_at_beginning : M Z :=
  r <- set_loads 0 regulator_enable_loads ;;
  if negb (r =? 0) then ret r else
  r <- call regulator_bulk_enable ;;
  if r <? 0 then ret r else
  r <- set_loads 0 regulator_disable_loads ;;
  if negb (r =? 0) then ret r else
  r <- call regulator_bulk_disable ;;
  if r <? 0 then ret r else
  reset_pulse ;;;
  ret 0.

(** The loop of [send_mipi_cmds] from index [i]; the argument is the part of
    the array from [cmds[i]] on.  [None] stands for a read past the end of
    the array or of an entry's bytes, which C leaves undefined. *)
Fixpoint send_mipi_cmds_from (cmds : list panel_cmd) : M (option Z) :=
  match cmds with
  | [] => ret None
  | cmd :: rest =>
      if len cmd =? 0 then ret (Some 0) else
      match cmd_operands cmd with
      | None => ret None
      | Some (addr, payload, d0) =>
          err <- call (mipi_dsi_dcs_write addr payload) ;;
          if err <? 0 then ret (Some err) else
          emit (usleep_range (u8 d0 * 1000) ((1 + u8 d0) * 1000)) ;;;
          send_mipi_cmds_from rest
      end
  end.

(** [cmds] is [None] for a NULL pointer. *)
Definition send_mipi_cmds (cmds : option (list panel_cmd)) : M (option Z) :=
  match cmds with
  | None => ret (Some (- EFAULT))
  | Some a => send_mipi_cmds_from a
  end.

Definition panel_set_pinctrl_state (enable : bool) : M Z :=
  call (pinctrl_select_state (if enable then panel_active else panel_suspend)).

(** "HACK: return 0 for now": the body is compiled out with [#if 0]. *)
Definition lg_panel_disable : M Z := ret 0.

Definition lg_panel_power_off : M Z :=
  emit (gpiod_set_value 0) ;;;
  r <- panel_set_pinctrl_state false ;;
  if negb (r =? 0) then ret r else
  r <- set_loads 0 regulator_disable_loads ;;
  if negb (r =? 0) then ret r else
  call regulator_bulk_disable.

(** "HACK": [return 0] comes first and the rest is compiled out. *)
Definition lg_panel_unprepare : M Z := ret 0.

Definition lg_panel_power_on : M Z :=
  r <- set_loads 0 regulator_enable_loads ;;
  if negb (r =? 0) then ret r else
  r <- call regulator_bulk_enable ;;
  if r <? 0 then ret r else
  r <- panel_set_pinctrl_state true ;;
  if negb (r =? 0) then ret r else
  reset_pulse ;;;
  ret 0.

(** The [dsi_dcs_write_seq] macro: one buffer write, and [return ret] out of
    the enclosing function when it fails; [k] is the code after the macro. *)
Definition dsi_dcs_write_seq (d : list byte) (k : M Z) : M Z :=
  r <- call (mipi_dsi_dcs_write_buffer d) ;;
  if r <? 0 then ret r else k.

Fixpoint dsi_dcs_write_seqs (ds : list (list byte)) (k : M Z) : M Z :=
  match ds with
  | [] => k
  | d :: rest => dsi_dcs_write_seq d (dsi_dcs_write_seqs rest k)
  end.

(** The buffers of the consecutive [dsi_dcs_write_seq] invocations of
    [lg_panel_prepare] between the brightness setup and the sleep exit, in
    program order. *)
Definition prepare_write_seqs : list (list byte) :=
  [
  [MIPI_DCS_WRITE_CONTROL_DISPLAY; x2c];
  [MIPI_DCS_SET_CABC_MIN_BRIGHTNESS; x00];
  [MIPI_DCS_WRITE_POWER_SAVE; x81];
  [xb0; xac];
  [xb3; x04; x04; x28; x08; x5a; x12; x23; x02];
  [xb4; x11; x04; x02; x02; x02; x02; x02; x01; x01; x01; x01; x01; x01;
   xd0; xe4; xe4; xe4; x93; x4e; x39; x0a; x10; x18; x25; x24; x00; x00;
   x00; x00; x00; x00];
  [xb5; x2e; x0f; x10; xc0; x00; x10; xc0; x00];
  [xb6; x03; x05; x0b; xb3; x30];
  [xb8; x57; x02; x90; x40; x5d; xd0; x05; x00; x00; x18; x22; x04; x01;
   x02; x90; x40; x4c; xc0; x04; x00; x00; x18; x22; x04; x01; x08; x00;
   x3a; x86; x83; x00];
  [xb9; x64; x64; x2a; x3f; xee];
  [xba; x3d; x1f; x01; xff; x01; x3c; x1f; x01; xff; x01; x00];
  [xbc; x00; x00; x00; x90];
  [xbd; x00; x00];
  [xbf; x4f; x02];
  [xc0; x00; x04; x18; x07; x11; x11; x3c; x00; x0a; x0a];
  [xc1; x01; x00; xf0; xc2; xcf; x0c];
  [xc2; xcc; x44; x44; x20; x22; x26; x21; x00];
  [xc3; x92; x11; x09; x09; x11; xcc; x02; x02; xa4; xa4; x02; xa2; x38;
   x28; x14; x40; x38; xc0];
  [xc4; x26; x00];
  [xc9; x05; x5d; x03; x04; x00];
  [xca; x9b; x10];
  [xcb; xf3; x90; x3d; x30; xcc];
  [xcc; x00; x40; x50; x90; x41];
  [xce; x00; x00];
  [xd0; x12; x05; x20; x1b; x2c; x28; x3f; x3d; x4f; x4f; x66; x66; x6e;
   x6e; x76; x76; x80; x80; x88; x88; x95; x95; x3f; x3f; xa2; xa2; x94;
   x94; x8b; x8b; x81; x81; x75; x75; x66; x66; x47; x47; x2d; x2d; x00;
   x01; x12; x05; x20; x1b; x2c; x28; x3f; x3d; x4f; x4f; x66; x66; x6e;
   x6e; x76; x76; x80; x80; x88; x88; x95; x95; x3f; x3f; xa2; xa2; x94;
   x94; x8b; x8b; x81; x81; x75; x75; x66; x66; x47; x47; x2d; x2d; x00;
   x01; x12; x05; x20; x1b; x2c; x28; x3f; x3d; x4f; x4f; x66; x66; x6e;
   x6e; x76; x76; x80; x80; x88; x88; x95; x95; x3f; x3f; xa2; xa2; x94;
   x94; x8b; x8b; x81; x81; x75; x75; x66; x66; x47; x47; x2d; x2d; x00;
   x01; x12; x05; x20; x1b; x2c; x28; x3f; x3d; x4f; x4f; x66; x66; x6e;
   x6e; x76; x76; x80; x80; x88; x88; x94; x94; x3f; x3f; xa4; xa4; x95;
   x95; x8b; x8b; x81; x81; x75; x75; x66; x66; x47; x47; x2d; x2d; x00;
   x01];
  [xd1; x12; x05; x20; x1b; x2e; x29; x41; x3f; x52; x52; x6a; x6a; x72;
   x72; x7a; x7a; x84; x84; x8c; x8c; x9a; x9a; x3f; x3f; x9b; x9b; x8d;
   x8d; x84; x84; x7a; x7a; x6e; x6e; x5f; x5f; x41; x41; x2a; x2a; x00;
   x01; x12; x05; x20; x1b; x2e; x29; x41; x3f; x52; x52; x6a; x6a; x72;
   x72; x7a; x7a; x84; x84; x8c; x8c; x9a; x9a; x3f; x3f; x9b; x9b; x8d;
   x8d; x84; x84; x7a; x7a; x6e; x6e; x5f; x5f; x41; x41; x2a; x2a; x00;
   x01; x12; x05; x20; x1b; x2e; x29; x41; x3f; x52; x52; x6a; x6a; x72;
   x72; x7a; x7a; x84; x84; x8c; x8c; x9a; x9a; x3f; x3f; x9b; x9b; x8d;
   x8d; x84; x84; x7a; x7a; x6e; x6e; x5f; x5f; x41; x41; x2a; x2a; x00;
   x01; x12; x05; x20; x1b; x2e; x29; x41; x3f; x52; x52; x6a; x6a; x72;
   x72; x7a; x7a; x84; x84; x8c; x8c; x9a; x9a; x3f; x3f; x9b; x9b; x8d;
   x8d; x84; x84; x7a; x7a; x6e; x6e; x5f; x5f; x41; x41; x2a; x2a; x00;
   x01];
  [xd2; x12; x05; x20; x1b; x2f; x2a; x43; x41; x55; x55; x6e; x6e; x76;
   x76; x7e; x7e; x88; x88; x90; x90; x9f; x9f; x3f; x3f; x95; x95; x86;
   x86; x7d; x7d; x74; x74; x68; x68; x59; x59; x3c; x3c; x26; x26; x00;
   x01; x12; x05; x20; x1b; x2f; x2a; x43; x41; x55; x55; x6e; x6e; x76;
   x76; x7e; x7e; x88; x88; x90; x90; x9f; x9f; x3f; x3f; x95; x95; x86;
   x86; x7d; x7d; x74; x74; x68; x68; x59; x59; x3c; x3c; x26; x26; x00;
   x01; x12; x05; x20; x1b; x2f; x2a; x43; x41; x55; x55; x6e; x6e; x76;
   x76; x7e; x7e; x88; x88; x90; x90; x9f; x9f; x3f; x3f; x95; x95; x86;
   x86; x7d; x7d; x74; x74; x68; x68; x59; x59; x3c; x3c; x26; x26; x00;
   x01; x12; x05; x20; x1b; x2f; x2a; x43; x41; x55; x55; x6e; x6e; x76;
   x76; x7e; x7e; x88; x88; x90; x90; x9f; x9f; x3f; x3f; x95; x95; x86;
   x86; x7d; x7d; x74; x74; x68; x68; x59; x59; x3c; x3c; x26; x26; x00;
   x01];
  [xd3; x12; x01; x00; x00];
  [xd4; xdc; x5f; x9c; xbe; x39; x39; x39; x47; x48; x48; x48; x3a; x00;
   x03; x6d; x80; x00; x00; x8c; x66; x00; x00; x8c; x66; x00; x00; x8c;
   x66; x00; x0a; x48; x80; x00; x0a; x48; x80; x00; x0a; x48; x80; x00;
   x0a; x48; x80; x20; x0a; x14; x0a; x18; x00; x1c; xcc; x23; x9e; x23;
   x9e; x01; x01; x01; x01; x04; x04; x04; x04; x01; x00; x02; x80; x00;
   x10; x00; x10; x00; x10; x13; x9e; x13; x9e; x13; x9e; x13; x9e; x05;
   x05; x05; x05; x05; x05; x05; x05; x23; x9e; xff; xff; x13; x33; x18;
   x00; x16; x66; x10; x00; xff; x01; x00; x02; x00; x03; x00; x04; x00;
   x05; x00; x06; x00; x07; x00; x08; x00; x09; x00; x0a; x00; x0b; x00;
   x0c; x00; x0d; x00; x0e; x00; x0f; x00; x1b; x25; xdc; x18; x00; x20;
   x00; x1c; xe1; x00; xff; xe0; xc8; xc8; x41; x8f];
  [xad; x01; x02; x03; x04; x05; x06; x06; x06; x06; x06; x06; x06; x06;
   x06; x06; x06; x20; x40; x60; x90; xc0; xf0; xff; xff; xff; xff; xff;
   xff; xff; xff; xff; xff];
  [xae; x01; x02; x03; x04; x05; x06; x06; x06; x06; x06; x06; x06; x06;
   x06; x06; x06; x20; x40; x60; x90; xc0; xf0; xff; xff; xff; xff; xff;
   xff; xff; xff; xff; xff];
  [xe5; x0b; x0a; x0c; x00; x02; x04; x06; x08; x0f; x1b; x02; x1a; x1a;
   x0b; x0a; x0c; x01; x03; x05; x07; x09; x10; x1b; x03; x1a; x1a];
  [xe6; x11; x12; x13; x14; x15; x16; x17; x18; x11; x12; x13; x14; x15;
   x16; x17; x18];
  [xed; x21; x49; x00; x00; x00; x00];
  [MIPI_DCS_WRITE_POWER_SAVE; x81];
  [xf3; x00; x01; x00; x0d; x00];
  [xf4; x00; x00; x40; x83; xc5; x00; x01; x00; x00; x00; x00; x00; x00];
  [xfb; x20; x40; x60; x80; xa0; xc0; xe0; x13; x18; x18; x18; x16; x0d;
   x0d; x00; xc7; xcf; xd8; xe1; xea; xf3; xf9; xff];
  [xf5; x00];
  [xf6; x40; x40; x40; x40; x40; x40; x40; x40; x00; x00; x00; x00; x00;
   x00; x00; x00];
  [xf7; x40; x40; x40; x40; x40; x40; x40; x40; x00; x00; x00; x00; x00;
   x00; x00; x00];
  [xf8; x40; x40; x40; x40; x40; x40; x40; x40; x00; x00; x00; x00; x00;
   x00; x00; x00];
  [xfc; x13; x70; xd0; x26; x30; x7c; x02; xff; x12; x22; x22; x10; x00];
  [MIPI_DCS_ENTER_NORMAL_MODE]
  ].

(** The [poweroff:] label of [lg_panel_prepare]. *)
Definition poweroff (err : Z) : M Z :=
  emit (gpiod_set_value 1) ;;;
  ret err.

(** [lg_panel_prepare] from [if (pinfo->prepared)] to its end. *)
Definition lg_panel_prepare_rest : M Z :=
  p <- gets prepared ;;
  if p then ret 0 else
  d <- gets init_delay_us ;;
  emit (usleep_range d d) ;;;
  err <- lg_panel_power_on ;;
  if err <? 0 then poweroff err else
  r <- call (mipi_dsi_dcs_set_tear_on MIPI_DSI_DCS_TEAR_MODE_VBLANK) ;;
  if r <? 0 then ret r else
  r <- call (mipi_dsi_dcs_set_page_address 0x0000 0x0c2f) ;;
  if r <? 0 then ret r else
  r <- call (mipi_dsi_dcs_set_display_brightness (u16 0x00ff)) ;;
  if r <? 0 then ret r else
  dsi_dcs_write_seqs prepare_write_seqs (
  r <- call mipi_dsi_dcs_exit_sleep_mode ;;
  if r <? 0 then ret r else
  emit (msleep 256) ;;;
  (* the length argument is 0: no payload byte is sent *)
  err <- call (mipi_dsi_dcs_write MIPI_DSI_COMPRESSION_MODE []) ;;
  if err <? 0 then poweroff err else
  dsi_dcs_write_seq [xbd; x01; x05] (
  r <- call mipi_dsi_dcs_set_display_on ;;
  if r <? 0 then ret r else
  emit (usleep_range 5000 6000) ;;;
  emit (msleep 120) ;;;
  modify (set_prepared true) ;;;
  ret 0)).

Definition lg_panel_prepare : M Z :=
  fe <- gets first_enable ;;
  if fe then
    modify (set_first_enable false) ;;;
    err <- panel_reset_at_beginning ;;
    if err <? 0 then ret err else lg_panel_prepare_rest
  else lg_panel_prepare_rest.

(** [bl] is [bl->props] at the time of the call.  The brightness parameter
    of [mipi_dsi_dcs_set_display_brightness] is a [u16] in
    <drm/drm_mipi_dsi.h>; [pinfo->brightness] is a [u32]. *)
Definition lg_panel_backlight_update_status (bl : backlight_properties) : M Z :=
  (if negb (props_power bl =? FB_BLANK_UNBLANK)
      || negb (props_fb_blank bl =? FB_BLANK_UNBLANK)
      || negb (Z.land (props_state bl) BL_CORE_FBBLANK =? 0)
   then modify (set_brightness 0)
   else modify (set_brightness (u32 (props_brightness bl)))) ;;;
  b <- gets brightness ;;
  call (mipi_dsi_dcs_set_display_brightness (u16 b)).

(** [backlight_enable] of <linux/backlight.h>, an inline that is not part of
    the driver file.  It marks the device unblanked in its props
    ([power] and [fb_blank] set to FB_BLANK_UNBLANK, BL_CORE_FBBLANK cleared
    in [state]) and calls the [update_status] callback of the device's ops,
    whose status is its result.  The device is the one behind
    [pinfo->backlight], which [lg_panel_backlight_init] registers with
    [lg_panel_backlight_ops]: the callback is the driver's own
    [lg_panel_backlight_update_status]. *)
Definition backlight_enable : M Z :=
  bl <- gets backlight ;;
  modify (set_backlight
            {| props_brightness := props_brightness bl;
               props_power := FB_BLANK_UNBLANK;
               props_fb_blank := FB_BLANK_UNBLANK;
               props_state := Z.land (props_state bl) (Z.lnot BL_CORE_FBBLANK) |}) ;;;
  bl <- gets backlight ;;
  lg_panel_backlight_update_status bl.

(** The DSC branch of the source only packs and logs the picture parameter
    set (the transmit is commented out), so it issues no leaf call. *)
Definition lg_panel_enable : M Z :=
  e <- gets enabled ;;
  if e then ret 0 else
  r <- backlight_enable ;;
  if negb (r =? 0) then ret r else
  modify (set_enabled true) ;;;
  ret 0.

(** [struct drm_panel_funcs panel_funcs]: the lifecycle callbacks the host
    display framework calls. *)
Inductive drm_panel_func := disable | unprepare | prepare | enable.

Definition panel_funcs (f : drm_panel_func) : M Z :=
  match f with
  | disable => lg_panel_disable
  | unprepare => lg_panel_unprepare
  | prepare => lg_panel_prepare
  | enable => lg_panel_enable
  end.

End Driver.

(** ** Panel construction

    [panel_probe] allocates the [panel_info] with [devm_kzalloc], which
    zero-fills it; [panel_add] then sets [init_delay_us], and
    [lg_panel_backlight_init] the two brightness fields and the backlight
    device, registered from zeroed props with brightness 255.  No other field of
    the runtime state is written before the first lifecycle call.  The model
    is the path on which every resource is obtained; on the others the panel
    is not registered. *)

Definition devm_kzalloc_panel_info : panel_info :=
  {| backlight := {| props_brightness := 0; props_power := 0;
                     props_fb_blank := 0; props_state := 0 |};
     brightness := 0; max_brightness := 0; init_delay_us := 0;
     prepared := false; enabled := false; first_enable := false |}.

Definition lg_panel_backlight_init (p : panel_info) : panel_info :=
  {| backlight := {| props_brightness := 255; props_power := 0;
                     props_fb_blank := 0; props_state := 0 |};
     brightness := 255; max_brightness := 255;
     init_delay_us := init_delay_us p; prepared := prepared p;
     enabled := enabled p; first_enable := first_enable p |}.

Definition panel_add (p : panel_info) : panel_info :=
  lg_panel_backlight_init
    {| backlight := backlight p;
       brightness := brightness p; max_brightness := max_brightness p;
       init_delay_us := 5000; prepared := prepared p;
       enabled := enabled p; first_enable := first_enable p |}.

Definition panel_probe : world :=
  {| pinfo := panel_add devm_kzalloc_panel_info; trace := [] |}.

(** ** States the host can reach

    The host calls the four callbacks of [panel_funcs] on the probed panel;
    [allowed w f] says whether it may call [f] in [w]. *)
Inductive reachable {hdr : kernel_headers} (env : list event -> Z)
    (allowed : world -> drm_panel_func -> Prop) : world -> Prop :=
| reach_probe : reachable env allowed panel_probe
| reach_call (w : world) (f : drm_panel_func) :
    reachable env allowed w -> allowed w f ->
    reachable env allowed (snd (panel_funcs env f w)).

(** Any callback in any state. *)
Definition any_order (w : world) (f : drm_panel_func) : Prop := True.

(** [enable] only on a prepared panel. *)
Definition enable_after_prepare (w : world) (f : drm_panel_func) : Prop :=
  f = enable -> prepared (pinfo w) = true.

(** ** Vocabulary of the properties *)

(** A command entry as the data model describes it:
    [delay_ms, dcs_address, payload...], with [len] counting bytes that are
    there and fitting a [size_t]. *)
Definition well_formed (c : panel_cmd) : Prop :=
  2 <= len c <= Z.of_nat (length (data c)) /\ len c < 2 ^ 64.

Definition delay_ms (c : panel_cmd) : Z := u8 (nth 0 (data c) x00).

Definition dcs_address (c : panel_cmd) : byte := nth 1 (data c) x00.

Definition dcs_payload (c : panel_cmd) : list byte :=
  skipn 2 (firstn (Z.to_nat (len c)) (data c)).

(** The one write an entry stands for: address only when [len == 2], address
    and payload otherwise. *)
Definition write_of (c : panel_cmd) : event :=
  mipi_dsi_dcs_write (dcs_address c) (if len c =? 2 then [] else dcs_payload c).

(** The settling delay of an entry: at least [delay_ms] milliseconds. *)
Definition delay_of (c : panel_cmd) : event :=
  usleep_range (delay_ms c * 1000) ((1 + delay_ms c) * 1000).

(** The wire-level activity of a batch: per entry, in order, its write and
    then its delay. *)
Definition transmission (batch : list panel_cmd) : list event :=
  flat_map (fun c => [write_of c; delay_of c]) batch.

(** Every write of [batch], issued in turn after history [hist], succeeds. *)
Fixpoint writes_succeed (env : list event -> Z) (hist : list event)
    (batch : list panel_cmd) : Prop :=
  match batch with
  | [] => True
  | c :: rest =>
      0 <= env (hist ++ [write_of c]) /\
      writes_succeed env (hist ++ [write_of c; delay_of c]) rest
  end.

(** Leaf calls that report a status. *)
Definition returns_status (e : event) : bool :=
  match e with
  | gpiod_set_value _ | usleep_range _ _ | msleep _ => false
  | _ => true
  end.

(** The error codes (negative statuses) the environment returned to the
    leaf calls [new], issued after history [hist], in order. *)
Fixpoint failures (env : list event -> Z) (hist new : list event) : list Z :=
  match new with
  | [] => []
  | e :: rest =>
      (if returns_status e && (env (hist ++ [e]) <? 0)
       then [env (hist ++ [e])] else [])
      ++ failures env (hist ++ [e]) rest
  end.

(** The level last driven on the reset line by the calls [tr], or [lvl] when
    they do not drive it. *)
Fixpoint reset_line (lvl : option Z) (tr : list event) : option Z :=
  match tr with
  | [] => lvl
  | gpiod_set_value v :: rest => reset_line (Some v) rest
  | _ :: rest => reset_line lvl rest
  end.

(** [regulator_set_load] and [pinctrl_select_state] return 0 or a negative
    errno, as their kernel documentation says. *)
Definition status_convention (env : list event -> Z) : Prop :=
  forall hist e,
    match e with
    | regulator_set_load _ _ | pinctrl_select_state _ => env (hist ++ [e]) <= 0
    | _ => True
    end.

(** A backlight request that asks for a dark panel. *)
Definition blanked {hdr : kernel_headers} (bl : backlight_properties) : Prop :=
  props_power bl <> FB_BLANK_UNBLANK \/
  props_fb_blank bl <> FB_BLANK_UNBLANK \/
  Z.land (props_state bl) BL_CORE_FBBLANK <> 0.

(** Leaf calls that neither drive the reset line nor switch the rails off. *)
Definition quiet (e : event) : bool :=
  match e with
  | gpiod_set_value _ | regulator_bulk_disable => false
  | _ => true
  end.

(** Where [lg_panel_prepare] stands having issued the calls [new] since
    entry with history [tr0] and runtime state [p0]: nothing failed, the
    runtime state is untouched, the rails were not switched off. *)
Definition prepare_progress (env : list event -> Z) (tr0 : list event)
    (p0 : panel_info) (new : list event) (w : world) : Prop :=
  pinfo w = p0 /\
  trace w = tr0 ++ new /\
  ~ In regulator_bulk_disable new /\
  failures env tr0 new = [].

(** After power-on, moreover, the reset line was left high. *)
Definition prepare_inv (env : list event -> Z) (tr0 : list event)
    (p0 : panel_info) (new : list event) (w : world) : Prop :=
  prepare_progress env tr0 p0 new w /\
  (status_convention env -> reset_line None new = Some 1).

(** How a call of [lg_panel_prepare] on an unprepared panel ends: with 0, no
    failure and [prepared] set, or with the error code of the one failure,
    the runtime state untouched and the reset line high. *)
Definition prepare_post (env : list event -> Z) (tr0 : list event)
    (p0 : panel_info) (out : Z * world) : Prop :=
  exists new,
    trace (snd out) = tr0 ++ new /\
    ~ In regulator_bulk_disable new /\
    ((fst out = 0 /\ failures env tr0 new = [] /\
      pinfo (snd out) = set_prepared true p0) \/
     (fst out < 0 /\ failures env tr0 new = [fst out] /\
      pinfo (snd out) = p0 /\
      (status_convention env -> reset_line None new = Some 1))).

(** A continuation of [lg_panel_prepare] that ends well from every state
    satisfying the invariant. *)
Definition ends_well (env : list event -> Z) (tr0 : list event)
    (p0 : panel_info) (k : M Z) : Prop :=
  forall new w, prepare_inv env tr0 p0 new w -> prepare_post env tr0 p0 (k w).


(** ** Concrete headers and environments for the examples *)

(** The values of the mainline kernel headers. *)
Definition linux_headers : kernel_headers :=
  {| MIPI_DCS_ENTER_NORMAL_MODE := x13;
     MIPI_DCS_WRITE_CONTROL_DISPLAY := x53;
     MIPI_DCS_WRITE_POWER_SAVE := x55;
     MIPI_DCS_SET_CABC_MIN_BRIGHTNESS := x5e;
     MIPI_DSI_COMPRESSION_MODE := x07;
     MIPI_DSI_DCS_TEAR_MODE_VBLANK := 0;
     FB_BLANK_UNBLANK := 0;
     BL_CORE_FBBLANK := 2;
     EFAULT := 14 |}.

(** Every leaf call succeeds. *)
Definition env_ok : list event -> Z := fun _ => 0.

(** The [n]-th leaf call since probe returns [err], every other one 0. *)
Definition env_fail_at (n : nat) (err : Z) : list event -> Z :=
  fun hist => if Nat.eqb (length hist) n then err else 0.

(** The first command table of the driver. *)
Definition lg_sw49410_rev1_on_cmds_1 : list panel_cmd :=
  [ _INIT_CMD [x00; x26; x02];
    _INIT_CMD [x00; x35; x00];
    _INIT_CMD [x00; x53; x0c; x30];
    _INIT_CMD [x00; x55; x00; x70; xdf; x00; x70; xdf];
    _INIT_CMD [x00; xf7; x01; x49; x0c];
    sentinel ].

(** The probed panel after one [prepare], and after [prepare] then
    [enable], every leaf call succeeding. *)
Definition prepared_panel : world :=
  snd (panel_funcs (hdr := linux_headers) env_ok prepare panel_probe).

Definition enabled_panel : world :=
  snd (panel_funcs (hdr := linux_headers) env_ok enable prepared_panel).

(** The probed panel after [enable] alone. *)
Definition enabled_unprepared_panel : world :=
  snd (panel_funcs (hdr := linux_headers) env_ok enable panel_probe).

(** A request for brightness 100 on an unblanked backlight. *)
Definition unblanked_100 : backlight_properties :=
  {| props_brightness := 100; props_power := 0; props_fb_blank := 0;
     props_state := 0 |}.

(** The same request with the panel powered down (FB_BLANK_POWERDOWN). *)
Definition powerdown_100 : backlight_properties :=
  {| props_brightness := 100; props_power := 4; props_fb_blank := 0;
     props_state := 0 |}.


(** ** Vocabulary for the properties of the remaining code *)

Definition is_gpio (e : event) : bool :=
  match e with
  | gpiod_set_value _ => true
  | _ => false
  end.

(** Leaf calls that send a command to the panel. *)
Definition is_dcs (e : event) : bool :=
  match e with
  | mipi_dsi_dcs_write _ _ | mipi_dsi_dcs_write_buffer _
  | mipi_dsi_dcs_set_tear_on _ | mipi_dsi_dcs_set_page_address _ _
  | mipi_dsi_dcs_set_display_brightness _
  | mipi_dsi_dcs_exit_sleep_mode | mipi_dsi_dcs_set_display_on => true
  | _ => false
  end.

(** The leaf calls of the reset sequence, in program order. *)
Definition reset_calls : list event :=
  [gpiod_set_value 1; usleep_range 30000 10000;
   gpiod_set_value 0; usleep_range 30000 2000;
   gpiod_set_value 1; usleep_range 30000 10000].

(** The leaf calls of a complete [panel_reset_at_beginning]. *)
Definition panel_reset_at_beginning_calls : list event :=
  [regulator_set_load 0 1700000; regulator_bulk_enable;
   regulator_set_load 0 100; regulator_bulk_disable] ++ reset_calls.

(** The leaf calls of a complete [lg_panel_power_on]. *)
Definition lg_panel_power_on_calls : list event :=
  [regulator_set_load 0 1700000; regulator_bulk_enable;
   pinctrl_select_state panel_active] ++ reset_calls.

(** The leaf calls of [lg_panel_prepare] after power-on, when nothing
    fails. *)
Definition lg_panel_prepare_dcs_calls {hdr : kernel_headers} : list event :=
  [mipi_dsi_dcs_set_tear_on MIPI_DSI_DCS_TEAR_MODE_VBLANK;
   mipi_dsi_dcs_set_page_address 0x0000 0x0c2f;
   mipi_dsi_dcs_set_display_brightness 0x00ff]
  ++ map mipi_dsi_dcs_write_buffer prepare_write_seqs
  ++ [mipi_dsi_dcs_exit_sleep_mode; msleep 256;
      mipi_dsi_dcs_write MIPI_DSI_COMPRESSION_MODE [];
      mipi_dsi_dcs_write_buffer [xbd; x01; x05];
      mipi_dsi_dcs_set_display_on;
      usleep_range 5000 6000; msleep 120].

(** The leaf calls of a complete [lg_panel_prepare] of an unprepared panel
    whose [init_delay_us] is [d], the first-enable branch apart. *)
Definition lg_panel_prepare_calls {hdr : kernel_headers} (d : Z) : list event :=
  usleep_range d d :: lg_panel_power_on_calls ++ lg_panel_prepare_dcs_calls.

(** An outcome of (a part of) [lg_panel_prepare] started in [w]: the leaf
    calls made are an initial segment of [rest], followed by the reset-high
    of the [poweroff:] label or by nothing; the result is 0 with all of
    [rest] issued and [prepared] set, or negative with the runtime state
    untouched. *)
Definition prefix_outcome (rest : list event) (w : world) (out : Z * world) : Prop :=
  exists n tl,
    (n <= length rest)%nat /\
    trace (snd out) = trace w ++ firstn n rest ++ tl /\
    ((fst out = 0 /\ n = length rest /\ tl = [] /\
      pinfo (snd out) = set_prepared true (pinfo w)) \/
     (fst out < 0 /\ (tl = [] \/ tl = [gpiod_set_value 1]) /\
      pinfo (snd out) = pinfo w)).

Definition prefix_run (rest : list event) (k : M Z) : Prop :=
  forall w, prefix_outcome rest w (k w).

(** A computation keeps the property [I] of worlds. *)
Definition preserves {A : Type} (I : world -> Prop) (m : M A) : Prop :=
  forall w, I w -> I (snd (m w)).

(** [I] survives the leaf call [e]. *)
Definition stable (I : world -> Prop) (e : event) : Prop :=
  forall w, I w -> I {| pinfo := pinfo w; trace := trace w ++ [e] |}.

(** [I] survives the update [f] of the runtime state. *)
Definition stable_update (I : world -> Prop) (f : panel_info -> panel_info) : Prop :=
  forall w, I w -> I {| pinfo := f (pinfo w); trace := trace w |}.

(** The host calls the callbacks [fs] one after the other. *)
Fixpoint run_calls {hdr : kernel_headers} (env : list event -> Z)
    (fs : list drm_panel_func) (w : world) : world :=
  match fs with
  | [] => w
  | f :: rest => run_calls env rest (snd (panel_funcs env f w))
  end.

(** What [send_mipi_cmds] may issue: writes, and delays of 0 to 255 ms with
    1 ms of slack. *)
Definition send_event (e : event) : Prop :=
  match e with
  | mipi_dsi_dcs_write _ _ => True
  | usleep_range lo hi => 0 <= lo <= 255000 /\ hi = lo + 1000
  | _ => False
  end.

(** [lg_panel_backlight_get_brightness].  Its one leaf call,
    [mipi_dsi_dcs_get_display_brightness], returns a status [ret] and may
    store a 16-bit value through its pointer argument; [stored] is the
    content of the local [u16 brightness] after the call (0 when the leaf
    left it alone). *)
Definition lg_panel_backlight_get_brightness (ret stored : Z) : Z :=
  if ret <? 0 then ret else Z.land (u16 stored) 0xff.

(** A panel on which [prepare] failed at the third buffer write. *)
Definition failed_panel : world :=
  snd (panel_funcs (hdr := linux_headers) (env_fail_at 16 (-5)) prepare panel_probe).

(** The probed panel with the first-enable flag set by hand. *)
Definition first_enable_panel : world :=
  {| pinfo := set_first_enable true (pinfo panel_probe); trace := [] |}.


(** * Properties *)

Section Properties.

Context {hdr : kernel_headers}.
Variable env : list event -> Z.

(** ** Small facts about worlds and traces *)

Lemma world_eta (w : world) : {| pinfo := pinfo w; trace := trace w |} = w.
Proof. destruct w; reflexivity. Qed.

Lemma world_trace_nil (w : world) :
  {| pinfo := pinfo w; trace := trace w ++ [] |} = w.
Proof. rewrite app_nil_r. apply world_eta. Qed.

Lemma failures_app (hist a b : list event) :
  failures env hist (a ++ b) = failures env hist a ++ failures env (hist ++ a) b.
Proof.
  revert hist. induction a as [|e a IH]; intros hist; simpl.
  - now rewrite app_nil_r.
  - rewrite IH, <- !app_assoc. reflexivity.
Qed.

Lemma reset_line_app (lvl : option Z) (a b : list event) :
  reset_line lvl (a ++ b) = reset_line (reset_line lvl a) b.
Proof.
  revert lvl. induction a as [|e a IH]; intros lvl; simpl; [reflexivity|].
  destruct e; apply IH.
Qed.

(** ** The command batch engine *)

Lemma cmd_operands_well_formed (c : panel_cmd) :
  well_formed c ->
  cmd_operands c =
  Some (dcs_address c, (if len c =? 2 then [] else dcs_payload c),
        nth 0 (data c) x00).
Proof.
  destruct c as [l d]. unfold well_formed, cmd_operands, dcs_address, dcs_payload.
  simpl. intros [[Hlo Hhi] Hsz].
  destruct d as [|d0 [|d1 rest]]; simpl in Hhi; try lia.
  destruct (Z.eqb_spec l 2) as [->|Hne]; [reflexivity|].
  unfold size_t. rewrite Z.mod_small by lia.
  replace (Z.to_nat l) with (S (S (Z.to_nat (l - 2)))) by lia.
  simpl. destruct (Z.leb_spec (l - 2) (Z.of_nat (length rest))); [reflexivity|lia].
Qed.

Lemma send_mipi_cmds_from_app (pre l : list panel_cmd) :
  forall w,
    Forall well_formed pre ->
    writes_succeed env (trace w) pre ->
    send_mipi_cmds_from env (pre ++ l) w =
    send_mipi_cmds_from env l
      {| pinfo := pinfo w; trace := trace w ++ transmission pre |}.
Proof.
  induction pre as [|c pre IH]; intros w Hwf Hok.
  - simpl. now rewrite world_trace_nil.
  - inversion Hwf as [|? ? Hc Hpre]; subst. destruct Hok as [Hc_ok Hrest].
    cbn [app send_mipi_cmds_from].
    destruct (Z.eqb_spec (len c) 0) as [E|_]; [destruct Hc as [[? ?] ?]; lia|].
    rewrite (cmd_operands_well_formed c Hc).
    unfold bind at 1. unfold call at 1. cbn [trace pinfo].
    fold (write_of c).
    destruct (Z.ltb_spec (env (trace w ++ [write_of c])) 0) as [?|_]; [lia|].
    unfold bind at 1. unfold emit at 1. cbn [trace pinfo].
    fold (delay_ms c). fold (delay_of c).
    rewrite IH; cbn [trace pinfo]; auto.
    + f_equal. f_equal. cbn [transmission flat_map app].
      now rewrite <- !app_assoc.
    + now rewrite <- app_assoc.
Qed.

(** C3.  A batch of well-formed commands followed by the zero-length
    sentinel, every write succeeding: [send_mipi_cmds] issues exactly the
    writes of the entries in table order, address only for [len == 2] and
    with the payload otherwise, each followed at once by the delay of its
    first byte in milliseconds, and returns 0 at the sentinel. *)
Theorem send_mipi_cmds_in_order (w : world) (batch rest : list panel_cmd)
    (s : panel_cmd) :
  Forall well_formed batch ->
  len s = 0 ->
  writes_succeed env (trace w) batch ->
  send_mipi_cmds env (Some (batch ++ s :: rest)) w =
  (Some 0, {| pinfo := pinfo w; trace := trace w ++ transmission batch |}).
Proof.
  intros Hwf Hs Hok. unfold send_mipi_cmds.
  rewrite send_mipi_cmds_from_app by assumption.
  cbn [send_mipi_cmds_from]. rewrite Hs. reflexivity.
Qed.

(** C4.  When the write of command Ck fails after the writes of C1..C(k-1)
    succeeded, [send_mipi_cmds] returns the error code of that write; the
    trace ends with the failed write, so no later command is sent and no
    further delay applied, and what was sent before stays sent. *)
Theorem send_mipi_cmds_stops_at_failure (w : world)
    (pre post : list panel_cmd) (ck : panel_cmd) :
  Forall well_formed pre ->
  well_formed ck ->
  writes_succeed env (trace w) pre ->
  env (trace w ++ transmission pre ++ [write_of ck]) < 0 ->
  send_mipi_cmds env (Some (pre ++ ck :: post)) w =
  (Some (env (trace w ++ transmission pre ++ [write_of ck])),
   {| pinfo := pinfo w;
      trace := trace w ++ transmission pre ++ [write_of ck] |}).
Proof.
  intros Hwf Hck Hok Hfail. unfold send_mipi_cmds.
  rewrite send_mipi_cmds_from_app by assumption.
  cbn [send_mipi_cmds_from].
  destruct (Z.eqb_spec (len ck) 0) as [E|_]; [destruct Hck as [[? ?] ?]; lia|].
  rewrite (cmd_operands_well_formed ck Hck).
  unfold bind, call. cbn [trace pinfo]. fold (write_of ck).
  rewrite <- app_assoc.
  destruct (Z.ltb_spec (env (trace w ++ transmission pre ++ [write_of ck])) 0);
    [reflexivity|lia].
Qed.

(** ** Teardown callbacks *)

(** C8.  As deployed, [lg_panel_unprepare] and [lg_panel_disable] return 0
    in every state, issue no leaf call and leave every field of the runtime
    state, [prepared] and [enabled] included, as it was. *)
Theorem unprepare_disable_are_noops (w : world) :
  lg_panel_unprepare w = (0, w) /\
  lg_panel_disable w = (0, w) /\
  panel_funcs env unprepare w = (0, w) /\
  panel_funcs env disable w = (0, w).
Proof. repeat split. Qed.

(** ** Power sequencing *)

(** C7, as the code has it.  [lg_panel_power_off] always deasserts reset and
    always tries the suspend pin state.  It stops at the first of the
    pinctrl selection and the disable-load setting that returns non-zero,
    returning that status without attempting the later steps; only when both
    return 0 is the bulk disable attempted, and its status is returned
    whatever it is. *)
Theorem lg_panel_power_off_stops_at_first_failure (w : world) :
  let t1 := trace w ++ [gpiod_set_value 0; pinctrl_select_state panel_suspend] in
  let t2 := t1 ++ [regulator_set_load 0 100] in
  let t3 := t2 ++ [regulator_bulk_disable] in
  let r := fst (lg_panel_power_off env w) in
  let w' := snd (lg_panel_power_off env w) in
  pinfo w' = pinfo w /\
  (env t1 <> 0 -> r = env t1 /\ trace w' = t1) /\
  (env t1 = 0 -> env t2 <> 0 -> r = env t2 /\ trace w' = t2) /\
  (env t1 = 0 -> env t2 = 0 -> r = env t3 /\ trace w' = t3).
Proof.
  cbv zeta.
  unfold lg_panel_power_off, panel_set_pinctrl_state, regulator_disable_loads,
    set_loads, bind, call, emit, ret.
  cbn [trace pinfo fst snd].
  rewrite <- !app_assoc. cbn [app].
  destruct (Z.eqb_spec
    (env (trace w ++ [gpiod_set_value 0; pinctrl_select_state panel_suspend])) 0)
    as [E1|E1]; cbn [negb fst snd trace pinfo].
  - rewrite <- !app_assoc. cbn [app].
    destruct (Z.eqb_spec
      (env (trace w ++ [gpiod_set_value 0; pinctrl_select_state panel_suspend;
                        regulator_set_load 0 100])) 0)
      as [E2|E2]; cbn [negb fst snd trace pinfo].
    + rewrite Z.eqb_refl. cbn [negb fst snd trace pinfo].
      rewrite <- !app_assoc. cbn [app].
      repeat split; intros; try congruence.
    + destruct (Z.eqb_spec
        (env (trace w ++ [gpiod_set_value 0; pinctrl_select_state panel_suspend;
                          regulator_set_load 0 100])) 0); [congruence|].
      cbn [negb fst snd trace pinfo].
      repeat split; intros; try congruence.
  - repeat split; intros; try congruence.
Qed.

(** ** Backlight *)

(** C9.  [lg_panel_backlight_update_status] issues exactly one
    set-display-brightness write.  Its value is 0 when the request's power
    state or its fb_blank field is not FB_BLANK_UNBLANK or the
    BL_CORE_FBBLANK bit of its state is set, whatever brightness is
    requested; otherwise it is the requested brightness, as it passes
    through the [u32] field and the [u16] parameter of the write, hence
    unchanged for every value from 0 to 65535 (the backlight is registered
    with a maximum of 255). *)
Theorem backlight_brightness_masking (bl : backlight_properties) (w : world) :
  exists v,
    trace (snd (lg_panel_backlight_update_status env bl w)) =
      trace w ++ [mipi_dsi_dcs_set_display_brightness v] /\
    (blanked bl -> v = 0) /\
    (~ blanked bl -> v = u16 (u32 (props_brightness bl))) /\
    (~ blanked bl -> 0 <= props_brightness bl < 2 ^ 16 ->
     v = props_brightness bl).
Proof.
  unfold lg_panel_backlight_update_status, blanked, bind, call, gets, modify.
  destruct (Z.eqb_spec (props_power bl) FB_BLANK_UNBLANK) as [Ep|Ep];
  destruct (Z.eqb_spec (props_fb_blank bl) FB_BLANK_UNBLANK) as [Ef|Ef];
  destruct (Z.eqb_spec (Z.land (props_state bl) BL_CORE_FBBLANK) 0) as [Es|Es];
  cbn [negb orb trace pinfo snd brightness set_brightness].
  1: { exists (u16 (u32 (props_brightness bl))). split; [reflexivity|].
       split; [|split].
       - intros [H|[H|H]]; contradiction.
       - reflexivity.
       - intros _ Hb. unfold u16, u32.
         rewrite (Z.mod_small (props_brightness bl) (2 ^ 32)) by lia.
         apply Z.mod_small; lia. }
  all: exists 0; split;
       [reflexivity
       |split; [intros _; reflexivity
               |split; intros Hnb; exfalso; apply Hnb; tauto]].
Qed.

(** C10.  The callback stores the effective brightness in
    [pinfo->brightness] and transmits the stored field.  When the write
    fails, the error of the write is returned and the field keeps the new
    effective value: nothing restores the old one. *)
Theorem backlight_update_not_rolled_back (bl : backlight_properties) (w : world) :
  let r := fst (lg_panel_backlight_update_status env bl w) in
  let w' := snd (lg_panel_backlight_update_status env bl w) in
  r < 0 ->
  r = env (trace w') /\
  trace w' =
    trace w ++ [mipi_dsi_dcs_set_display_brightness (u16 (brightness (pinfo w')))] /\
  (blanked bl -> brightness (pinfo w') = 0) /\
  (~ blanked bl -> brightness (pinfo w') = u32 (props_brightness bl)).
Proof.
  cbv zeta.
  unfold lg_panel_backlight_update_status, blanked, bind, call, gets, modify.
  destruct (Z.eqb_spec (props_power bl) FB_BLANK_UNBLANK) as [Ep|Ep];
  destruct (Z.eqb_spec (props_fb_blank bl) FB_BLANK_UNBLANK) as [Ef|Ef];
  destruct (Z.eqb_spec (Z.land (props_state bl) BL_CORE_FBBLANK) 0) as [Es|Es];
  cbn [negb orb trace pinfo fst snd brightness set_brightness]; intros _.
  all: split; [reflexivity|]; split; [reflexivity|]; split.
  1: intros [H|[H|H]]; contradiction.
  1: intros _; reflexivity.
  all: try (intros _; reflexivity).
  all: intros Hnb; exfalso; apply Hnb; tauto.
Qed.

(** ** [lg_panel_prepare]: the steps after power-on *)

Section PrepareSteps.

Variable tr0 : list event.
Variable p0 : panel_info.

Lemma prepare_progress_step (e : event) (new : list event) (w : world) :
  e <> regulator_bulk_disable ->
  returns_status e = false \/ 0 <= env (trace w ++ [e]) ->
  prepare_progress env tr0 p0 new w ->
  prepare_progress env tr0 p0 (new ++ [e])
    {| pinfo := pinfo w; trace := trace w ++ [e] |}.
Proof.
  intros Hne Hok (Hp & Ht & Hbd & Hf).
  unfold prepare_progress. cbn [pinfo trace]. repeat split.
  - exact Hp.
  - rewrite Ht, <- app_assoc. reflexivity.
  - intros Hin. apply in_app_or in Hin. destruct Hin as [Hin|[Hin|[]]].
    + now apply Hbd.
    + now apply Hne.
  - rewrite failures_app, Hf. cbn [failures app]. rewrite <- Ht.
    destruct Hok as [Hns|Hok].
    + now rewrite Hns.
    + destruct (Z.ltb_spec (env (trace w ++ [e])) 0); [lia|].
      now rewrite andb_false_r.
Qed.

Lemma prepare_progress_snoc (e : event) (new tr : list event) (p : panel_info) :
  e <> regulator_bulk_disable ->
  returns_status e = false \/ 0 <= env (tr ++ [e]) ->
  prepare_progress env tr0 p0 new {| pinfo := p; trace := tr |} ->
  prepare_progress env tr0 p0 (new ++ [e]) {| pinfo := p; trace := tr ++ [e] |}.
Proof. exact (prepare_progress_step e new {| pinfo := p; trace := tr |}). Qed.

Lemma quiet_not_bulk_disable (e : event) :
  quiet e = true -> e <> regulator_bulk_disable.
Proof. intros Hq ->. discriminate. Qed.

Lemma prepare_inv_step (e : event) (new : list event) (w : world) :
  quiet e = true ->
  returns_status e = false \/ 0 <= env (trace w ++ [e]) ->
  prepare_inv env tr0 p0 new w ->
  prepare_inv env tr0 p0 (new ++ [e])
    {| pinfo := pinfo w; trace := trace w ++ [e] |}.
Proof.
  intros Hq Hok [Hprog Hr]. split.
  - apply prepare_progress_step; auto using quiet_not_bulk_disable.
  - intros Hc. rewrite reset_line_app, (Hr Hc).
    destruct e; try reflexivity; discriminate.
Qed.

(** The call [e] fails and the function returns its status, either at once
    with the reset line already high, or through the [poweroff:] label. *)
Lemma prepare_post_failure (e : event) (tl new : list event) (w : world) :
  quiet e = true ->
  returns_status e = true ->
  env (trace w ++ [e]) < 0 ->
  prepare_progress env tr0 p0 new w ->
  tl = [gpiod_set_value 1] \/
    (tl = [] /\ (status_convention env -> reset_line None new = Some 1)) ->
  prepare_post env tr0 p0
    (env (trace w ++ [e]),
     {| pinfo := pinfo w; trace := (trace w ++ [e]) ++ tl |}).
Proof.
  intros Hq Hs Hneg (Hp & Ht & Hbd & Hf) Htl.
  exists (new ++ e :: tl). cbn [fst snd pinfo trace]. split; [|split].
  - rewrite Ht, <- !app_assoc. reflexivity.
  - intros Hin. apply in_app_or in Hin. destruct Hin as [Hin|[Hin|Hin]].
    + now apply Hbd.
    + subst e. discriminate.
    + destruct Htl as [->|[-> _]];
        [destruct Hin as [Hin|[]]; discriminate|destruct Hin].
  - right. repeat split.
    + exact Hneg.
    + rewrite failures_app, Hf. cbn [failures app]. rewrite <- Ht, Hs.
      destruct (Z.ltb_spec (env (trace w ++ [e])) 0); [|lia].
      cbn [andb app]. destruct Htl as [->|[-> _]]; reflexivity.
    + exact Hp.
    + intros Hc. rewrite reset_line_app.
      destruct Htl as [->|[-> Hr]].
      * destruct e; reflexivity.
      * rewrite (Hr Hc). destruct e; try reflexivity; discriminate.
Qed.

Lemma ends_well_call (e : event) (k : M Z) :
  quiet e = true ->
  returns_status e = true ->
  ends_well env tr0 p0 k ->
  ends_well env tr0 p0 (r <- call env e ;; if r <? 0 then ret r else k).
Proof.
  intros Hq Hs Hk new w Hinv. unfold bind, call. cbn [pinfo trace].
  destruct (Z.ltb_spec (env (trace w ++ [e])) 0) as [Hneg|Hpos].
  - unfold ret.
    rewrite <- (app_nil_r (trace w ++ [e])) at 2.
    destruct Hinv as [Hprog Hr].
    apply prepare_post_failure with (new := new); auto.
  - apply (Hk (new ++ [e])). apply prepare_inv_step; auto.
Qed.

Lemma ends_well_call_poweroff (e : event) (k : M Z) :
  quiet e = true ->
  returns_status e = true ->
  ends_well env tr0 p0 k ->
  ends_well env tr0 p0 (err <- call env e ;; if err <? 0 then poweroff err else k).
Proof.
  intros Hq Hs Hk new w Hinv. unfold bind, call. cbn [pinfo trace].
  destruct (Z.ltb_spec (env (trace w ++ [e])) 0) as [Hneg|Hpos].
  - unfold poweroff, bind, emit, ret. cbn [pinfo trace].
    destruct Hinv as [Hprog _].
    apply prepare_post_failure with (new := new); auto.
  - apply (Hk (new ++ [e])). apply prepare_inv_step; auto.
Qed.

Lemma ends_well_emit (e : event) (k : M Z) :
  quiet e = true ->
  returns_status e = false ->
  ends_well env tr0 p0 k ->
  ends_well env tr0 p0 (emit e ;;; k).
Proof.
  intros Hq Hs Hk new w Hinv. unfold bind, emit.
  apply (Hk (new ++ [e])). apply prepare_inv_step; auto.
Qed.

Lemma ends_well_write_seq (d : list byte) (k : M Z) :
  ends_well env tr0 p0 k ->
  ends_well env tr0 p0 (dsi_dcs_write_seq env d k).
Proof. intros Hk. unfold dsi_dcs_write_seq. now apply ends_well_call. Qed.

Lemma ends_well_write_seqs (ds : list (list byte)) (k : M Z) :
  ends_well env tr0 p0 k ->
  ends_well env tr0 p0 (dsi_dcs_write_seqs env ds k).
Proof.
  intros Hk. induction ds as [|d ds IH]; cbn [dsi_dcs_write_seqs].
  - exact Hk.
  - now apply ends_well_write_seq.
Qed.

Lemma ends_well_prepared :
  ends_well env tr0 p0 (modify (set_prepared true) ;;; ret 0).
Proof.
  intros new w [(Hp & Ht & Hbd & Hf) _].
  exists new. unfold bind, modify, ret. cbn [fst snd pinfo trace].
  repeat split; auto. left. rewrite Hp. auto.
Qed.

End PrepareSteps.

(** ** [lg_panel_power_on] and the whole of [lg_panel_prepare] *)

Lemma lg_panel_power_on_eq (w : world) :
  lg_panel_power_on env w =
  let at_ tr := {| pinfo := pinfo w; trace := tr |} in
  let t1 := trace w ++ [regulator_set_load 0 1700000] in
  let t2 := t1 ++ [regulator_bulk_enable] in
  let t3 := t2 ++ [pinctrl_select_state panel_active] in
  if env t1 =? 0 then
    if env t2 <? 0 then (env t2, at_ t2)
    else if env t3 =? 0 then
      (0, at_ ((((((t3 ++ [gpiod_set_value 1]) ++ [usleep_range 30000 10000]) ++
                  [gpiod_set_value 0]) ++ [usleep_range 30000 2000]) ++
                [gpiod_set_value 1]) ++ [usleep_range 30000 10000]))
    else (env t3, at_ t3)
  else (env t1, at_ t1).
Proof.
  cbv zeta.
  unfold lg_panel_power_on, regulator_enable_loads, set_loads,
    panel_set_pinctrl_state, reset_pulse, bind, call, emit, ret.
  cbn [pinfo trace].
  destruct (Z.eqb_spec (env (trace w ++ [regulator_set_load 0 1700000])) 0)
    as [E1|E1]; cbn [negb].
  - rewrite Z.eqb_refl. cbn [negb pinfo trace].
    destruct (env ((trace w ++ [regulator_set_load 0 1700000]) ++
                   [regulator_bulk_enable]) <? 0); [reflexivity|].
    cbn [pinfo trace].
    destruct (env (((trace w ++ [regulator_set_load 0 1700000]) ++
                    [regulator_bulk_enable]) ++
                   [pinctrl_select_state panel_active]) =? 0);
      reflexivity.
  - destruct (Z.eqb_spec (env (trace w ++ [regulator_set_load 0 1700000])) 0);
      [contradiction|reflexivity].
Qed.

Lemma lg_panel_power_on_spec (tr0 new : list event) (p0 : panel_info) (w : world) :
  prepare_progress env tr0 p0 new w ->
  let out := lg_panel_power_on env w in
  (fst out < 0 /\ prepare_post env tr0 p0 (poweroff (fst out) (snd out))) \/
  (0 <= fst out /\ exists new1, prepare_inv env tr0 p0 new1 (snd out)).
Proof.
  intros H0. rewrite lg_panel_power_on_eq. cbv zeta.
  set (e1 := regulator_set_load 0 1700000).
  set (e2 := regulator_bulk_enable).
  set (e3 := pinctrl_select_state panel_active).
  set (t1 := trace w ++ [e1]). set (t2 := t1 ++ [e2]). set (t3 := t2 ++ [e3]).
  set (w1 := {| pinfo := pinfo w; trace := t1 |}).
  set (w2 := {| pinfo := pinfo w; trace := t2 |}).
  set (w3 := {| pinfo := pinfo w; trace := t3 |}).
  destruct (Z.eqb_spec (env t1) 0) as [E1|E1].
  2: { (* the load setting returned non-zero *)
    cbn [fst snd]. destruct (Z.lt_ge_cases (env t1) 0) as [Hneg|Hpos].
    - left. split; [exact Hneg|].
      unfold poweroff, bind, emit, ret. cbn [pinfo trace].
      apply (prepare_post_failure tr0 p0 e1 [gpiod_set_value 1] new w); auto.
    - right. split; [exact Hpos|]. exists (new ++ [e1]). split.
      + apply (prepare_progress_step tr0 p0 e1 new w); [discriminate|now right|exact H0].
      + intros Hc. specialize (Hc (trace w) e1). cbn in Hc. fold t1 in Hc. lia. }
  assert (H1 : prepare_progress env tr0 p0 (new ++ [e1]) w1).
  { apply (prepare_progress_step tr0 p0 e1 new w); [discriminate|right|exact H0].
    fold t1. lia. }
  destruct (Z.ltb_spec (env t2) 0) as [Hneg2|Hpos2].
  { cbn [fst snd]. left. split; [exact Hneg2|].
    unfold poweroff, bind, emit, ret. cbn [pinfo trace].
    apply (prepare_post_failure tr0 p0 e2 [gpiod_set_value 1] (new ++ [e1]) w1);
      auto. }
  assert (H2 : prepare_progress env tr0 p0 ((new ++ [e1]) ++ [e2]) w2).
  { apply (prepare_progress_step tr0 p0 e2 (new ++ [e1]) w1);
      [discriminate|now right|exact H1]. }
  destruct (Z.eqb_spec (env t3) 0) as [E3|E3].
  2: { (* selecting the active pin state returned non-zero *)
    cbn [fst snd]. destruct (Z.lt_ge_cases (env t3) 0) as [Hneg|Hpos].
    - left. split; [exact Hneg|].
      unfold poweroff, bind, emit, ret. cbn [pinfo trace].
      apply (prepare_post_failure tr0 p0 e3 [gpiod_set_value 1]
               ((new ++ [e1]) ++ [e2]) w2); auto.
    - right. split; [exact Hpos|]. exists (((new ++ [e1]) ++ [e2]) ++ [e3]). split.
      + apply (prepare_progress_step tr0 p0 e3 _ w2);
          [discriminate|now right|exact H2].
      + intros Hc. specialize (Hc t2 e3). cbn in Hc. fold t3 in Hc. lia. }
  assert (H3 : prepare_progress env tr0 p0 (((new ++ [e1]) ++ [e2]) ++ [e3]) w3).
  { apply (prepare_progress_step tr0 p0 e3 _ w2); [discriminate|right|exact H2].
    cbn [trace w2]. fold t3. lia. }
  cbn [fst snd]. right. split; [lia|].
  eexists. split.
  - repeat (apply prepare_progress_snoc; [discriminate|now left|]). exact H3.
  - intros _. rewrite !reset_line_app. reflexivity.
Qed.

Lemma lg_panel_prepare_rest_spec (w : world) :
  prepared (pinfo w) = false ->
  prepare_post env (trace w) (pinfo w) (lg_panel_prepare_rest env w).
Proof.
  intros Hprep. unfold lg_panel_prepare_rest.
  unfold bind at 1. unfold gets at 1. rewrite Hprep.
  unfold bind at 1. unfold gets at 1.
  unfold bind at 1. unfold emit at 1. cbn [pinfo trace].
  set (e0 := usleep_range (init_delay_us (pinfo w)) (init_delay_us (pinfo w))).
  set (w0 := {| pinfo := pinfo w; trace := trace w ++ [e0] |}).
  assert (H0 : prepare_progress env (trace w) (pinfo w) [e0] w0).
  { repeat split. intros [H|[]]; discriminate. }
  unfold bind at 1.
  pose proof (lg_panel_power_on_spec (trace w) [e0] (pinfo w) w0 H0) as Hpo.
  cbv zeta in Hpo.
  destruct (lg_panel_power_on env w0) as [err w1]. cbn [fst snd] in Hpo.
  destruct Hpo as [[Hneg Hpost]|[Hpos [new1 Hinv]]].
  - destruct (Z.ltb_spec err 0); [exact Hpost|lia].
  - destruct (Z.ltb_spec err 0); [lia|].
    apply (fun H : ends_well env (trace w) (pinfo w) _ => H new1 w1 Hinv).
    repeat first
      [ apply ends_well_prepared
      | apply ends_well_write_seqs
      | apply ends_well_write_seq
      | apply ends_well_call; [reflexivity|reflexivity|]
      | apply ends_well_call_poweroff; [reflexivity|reflexivity|]
      | apply ends_well_emit; [reflexivity|reflexivity|] ].
Qed.

Lemma lg_panel_prepare_not_first (w : world) :
  first_enable (pinfo w) = false ->
  lg_panel_prepare env w = lg_panel_prepare_rest env w.
Proof.
  intros Hfe. unfold lg_panel_prepare. unfold bind at 1. unfold gets at 1.
  now rewrite Hfe.
Qed.

Lemma lg_panel_prepare_prepared (w : world) :
  first_enable (pinfo w) = false ->
  prepared (pinfo w) = true ->
  lg_panel_prepare env w = (0, w).
Proof.
  intros Hfe Hp. rewrite lg_panel_prepare_not_first by assumption.
  unfold lg_panel_prepare_rest. unfold bind at 1. unfold gets at 1.
  now rewrite Hp.
Qed.

(** What one call of [lg_panel_prepare] can do to the runtime state and the
    trace, the first-enable branch apart. *)
Lemma lg_panel_prepare_frame (w : world) :
  first_enable (pinfo w) = false ->
  let w' := snd (lg_panel_prepare env w) in
  (pinfo w' = pinfo w \/ pinfo w' = set_prepared true (pinfo w)) /\
  exists new, trace w' = trace w ++ new /\ ~ In regulator_bulk_disable new.
Proof.
  intros Hfe. cbv zeta. destruct (prepared (pinfo w)) eqn:Hp.
  - rewrite lg_panel_prepare_prepared by assumption. cbn [snd]. split; [now left|].
    exists []. rewrite app_nil_r. split; [reflexivity|intros []].
  - rewrite lg_panel_prepare_not_first by assumption.
    destruct (lg_panel_prepare_rest_spec w Hp) as (new & Ht & Hbd & Hcases).
    split; [|now exists new].
    destruct Hcases as [(_ & _ & Hpi)|(_ & _ & Hpi & _)]; [now right|now left].
Qed.

Lemma backlight_enable_clears_fbblank (st : Z) :
  Z.land (Z.land st (Z.lnot BL_CORE_FBBLANK)) BL_CORE_FBBLANK = 0.
Proof.
  rewrite <- Z.land_assoc, (Z.land_comm (Z.lnot BL_CORE_FBBLANK)).
  rewrite Z.land_lnot_diag. apply Z.land_0_r.
Qed.

(** What [backlight_enable] comes to: the device is unblanked, so the
    callback stores the brightness of the device and sends it. *)
Lemma backlight_enable_eq (w : world) :
  backlight_enable env w =
  let bl := backlight (pinfo w) in
  let b := u32 (props_brightness bl) in
  let tr := trace w ++ [mipi_dsi_dcs_set_display_brightness (u16 b)] in
  (env tr,
   {| pinfo :=
        set_brightness b
          (set_backlight
             {| props_brightness := props_brightness bl;
                props_power := FB_BLANK_UNBLANK;
                props_fb_blank := FB_BLANK_UNBLANK;
                props_state := Z.land (props_state bl) (Z.lnot BL_CORE_FBBLANK) |}
             (pinfo w));
      trace := tr |}).
Proof.
  cbv zeta.
  unfold backlight_enable, lg_panel_backlight_update_status, bind, gets, modify,
    call.
  cbn [pinfo trace backlight set_backlight props_power props_fb_blank
       props_state props_brightness].
  rewrite !Z.eqb_refl, backlight_enable_clears_fbblank. reflexivity.
Qed.

Lemma lg_panel_enable_eq (w : world) :
  lg_panel_enable env w =
  if enabled (pinfo w) then (0, w)
  else
    let out := backlight_enable env w in
    if fst out =? 0
    then (0, {| pinfo := set_enabled true (pinfo (snd out));
                trace := trace (snd out) |})
    else out.
Proof.
  unfold lg_panel_enable, bind, gets, modify, ret.
  destruct (enabled (pinfo w)); [reflexivity|]. cbv zeta.
  destruct (backlight_enable env w) as [r w1]. cbn [fst snd].
  destruct (r =? 0); reflexivity.
Qed.

Lemma lg_panel_enable_frame (w : world) :
  let w' := snd (lg_panel_enable env w) in
  prepared (pinfo w') = prepared (pinfo w) /\
  first_enable (pinfo w') = first_enable (pinfo w) /\
  exists new, trace w' = trace w ++ new /\ ~ In regulator_bulk_disable new.
Proof.
  cbv zeta. rewrite lg_panel_enable_eq, backlight_enable_eq. cbv zeta.
  cbn [fst snd].
  destruct (enabled (pinfo w)).
  - cbn [snd]. repeat split. exists []. rewrite app_nil_r.
    split; [reflexivity|intros []].
  - match goal with |- context [?x =? 0] => destruct (x =? 0) end;
      cbn [snd pinfo trace]; repeat split;
      eexists; (split; [reflexivity|intros [H|[]]; discriminate]).
Qed.

(** ** What holds in every state the host can reach *)

Lemma reachable_first_enable (allowed : world -> drm_panel_func -> Prop)
    (w : world) :
  reachable env allowed w ->
  first_enable (pinfo w) = false /\ ~ In regulator_bulk_disable (trace w).
Proof.
  induction 1 as [|w f _ [IHfe IHbd] _].
  - split; [reflexivity|intros []].
  - destruct f; cbn [panel_funcs]; try (split; assumption).
    + destruct (lg_panel_prepare_frame w IHfe) as [Hpi (new & Ht & Hbd)].
      split.
      * destruct Hpi as [-> | ->]; assumption.
      * rewrite Ht. intros Hin. apply in_app_or in Hin. tauto.
    + destruct (lg_panel_enable_frame w) as (_ & Hfe & new & Ht & Hbd).
      split.
      * now rewrite Hfe.
      * rewrite Ht. intros Hin. apply in_app_or in Hin. tauto.
Qed.

(** C1, as the code has it.  The probed panel has [first_enable] clear,
    since [devm_kzalloc] zero-fills and nothing sets the flag; it stays clear
    in every state the host can reach, and no call ever switches the rails
    off, which only [panel_reset_at_beginning] would do: the one-time
    sequence runs on no [prepare], not even the first. *)
Theorem first_enable_never_set (w : world) :
  reachable env any_order w ->
  first_enable (pinfo panel_probe) = false /\
  first_enable (pinfo w) = false /\
  ~ In regulator_bulk_disable (trace w) /\
  lg_panel_prepare env w = lg_panel_prepare_rest env w.
Proof.
  intros Hr. destruct (reachable_first_enable any_order w Hr) as [Hfe Hbd].
  repeat split; auto. now apply lg_panel_prepare_not_first.
Qed.

(** C2.  On an unprepared panel, whenever a leaf call made by
    [lg_panel_prepare] fails (returns a negative status), [lg_panel_prepare]
    returns that error code, [prepared] is still false, and the last level
    the call drove on the reset line before returning is high. *)
Theorem lg_panel_prepare_failure (w : world) :
  status_convention env ->
  first_enable (pinfo w) = false ->
  prepared (pinfo w) = false ->
  let r := fst (lg_panel_prepare env w) in
  let w' := snd (lg_panel_prepare env w) in
  exists new,
    trace w' = trace w ++ new /\
    forall err, In err (failures env (trace w) new) ->
      r = err /\ err < 0 /\
      prepared (pinfo w') = false /\
      reset_line None new = Some 1.
Proof.
  intros Hc Hfe Hp. cbv zeta.
  rewrite lg_panel_prepare_not_first by assumption.
  destruct (lg_panel_prepare_rest_spec w Hp) as (new & Ht & _ & Hcases).
  exists new. split; [exact Ht|]. intros err Hin.
  destruct Hcases as [(_ & Hf & _)|(Hneg & Hf & Hpi & Hr)].
  - rewrite Hf in Hin. destruct Hin.
  - rewrite Hf in Hin. destruct Hin as [<-|[]].
    rewrite Hpi. auto.
Qed.


(** C6, as the code has it.  [lg_panel_enable] does not look at [prepared],
    so the invariant needs the host to call [enable] on a prepared panel
    only; under that protocol no reachable state has [enabled] without
    [prepared]. *)
Theorem enabled_implies_prepared (w : world) :
  reachable env enable_after_prepare w ->
  enabled (pinfo w) = true ->
  prepared (pinfo w) = true.
Proof.
  induction 1 as [|w f Hr IH Hallowed].
  - discriminate.
  - destruct (reachable_first_enable _ w Hr) as [Hfe _].
    destruct f; cbn [panel_funcs]; try exact IH.
    + destruct (lg_panel_prepare_frame w Hfe) as [[-> | ->] _]; auto.
    + intros _. specialize (Hallowed eq_refl).
      destruct (lg_panel_enable_frame w) as (Hp & _). now rewrite Hp.
Qed.

End Properties.

(** * The properties on concrete panels *)

Lemma env_fail_at_convention (n : nat) (err : Z) :
  err <= 0 -> status_convention (env_fail_at n err).
Proof.
  intros Herr hist e. unfold env_fail_at.
  destruct e; try exact I; destruct (Nat.eqb _ n); lia.
Qed.

(** Had the flag been set at probe, the first [prepare] would start with the
    one-time sequence: enable load, bulk enable, disable load, bulk disable,
    reset pulse. *)
Example prepare_with_first_enable_set :
  let w := {| pinfo := set_first_enable true (pinfo panel_probe); trace := [] |} in
  firstn 5 (trace (snd (lg_panel_prepare (hdr := linux_headers) env_ok w))) =
  [regulator_set_load 0 1700000; regulator_bulk_enable;
   regulator_set_load 0 100; regulator_bulk_disable; gpiod_set_value 1].
Proof. vm_compute. reflexivity. Qed.

(** As probed, the first [prepare] goes straight to the settle delay and the
    power-on. *)
Example prepare_after_probe :
  firstn 5 (trace prepared_panel) =
  [usleep_range 5000 5000; regulator_set_load 0 1700000; regulator_bulk_enable;
   pinctrl_select_state panel_active; gpiod_set_value 1] /\
  prepared (pinfo prepared_panel) = true /\
  length (trace prepared_panel) = 64%nat.
Proof. vm_compute. repeat split. Qed.

Lemma first_enable_never_set_witness :
  first_enable (pinfo panel_probe) = false /\
  first_enable (pinfo prepared_panel) = false /\
  ~ In regulator_bulk_disable (trace prepared_panel) /\
  lg_panel_prepare (hdr := linux_headers) env_ok prepared_panel =
  lg_panel_prepare_rest (hdr := linux_headers) env_ok prepared_panel.
Proof.
  exact (first_enable_never_set (hdr := linux_headers) env_ok prepared_panel
           (reach_call env_ok any_order panel_probe prepare (reach_probe _ _) I)).
Defined.

(** The third buffer write of the init sequence fails with -5: the call
    returns -5 after 16 leaf calls, the panel is not prepared, and the reset
    line is as power-on left it, high. *)
Example prepare_third_write_fails :
  let out := lg_panel_prepare (hdr := linux_headers) (env_fail_at 16 (-5)) panel_probe in
  fst out = -5 /\
  prepared (pinfo (snd out)) = false /\
  length (trace (snd out)) = 16%nat /\
  failures (env_fail_at 16 (-5)) [] (trace (snd out)) = [-5] /\
  reset_line None (trace (snd out)) = Some 1.
Proof. vm_compute. repeat split. Qed.

(** A failing bulk enable and a failing compression-mode write leave through
    the [poweroff:] label, which drives reset high as the last leaf call. *)
Example prepare_bulk_enable_fails :
  lg_panel_prepare (hdr := linux_headers) (env_fail_at 3 (-5)) panel_probe =
  (-5, {| pinfo := pinfo panel_probe;
          trace := [usleep_range 5000 5000; regulator_set_load 0 1700000;
                    regulator_bulk_enable; gpiod_set_value 1] |}).
Proof. vm_compute. reflexivity. Qed.

Example prepare_compression_mode_fails :
  let out := lg_panel_prepare (hdr := linux_headers) (env_fail_at 60 (-5)) panel_probe in
  fst out = -5 /\
  prepared (pinfo (snd out)) = false /\
  skipn 58 (trace (snd out)) =
  [msleep 256; mipi_dsi_dcs_write x07 []; gpiod_set_value 1].
Proof. vm_compute. repeat split. Qed.

Lemma lg_panel_prepare_failure_witness :
  status_convention (env_fail_at 16 (-5)) /\
  first_enable (pinfo panel_probe) = false /\
  prepared (pinfo panel_probe) = false /\
  exists new,
    trace (snd (lg_panel_prepare (hdr := linux_headers)
                  (env_fail_at 16 (-5)) panel_probe)) =
      trace panel_probe ++ new /\
    forall err, In err (failures (env_fail_at 16 (-5)) (trace panel_probe) new) ->
      fst (lg_panel_prepare (hdr := linux_headers)
             (env_fail_at 16 (-5)) panel_probe) = err /\
      err < 0 /\
      prepared (pinfo (snd (lg_panel_prepare (hdr := linux_headers)
                              (env_fail_at 16 (-5)) panel_probe))) = false /\
      reset_line None new = Some 1.
Proof.
  split; [apply env_fail_at_convention; lia|].
  split; [reflexivity|]. split; [reflexivity|].
  apply (lg_panel_prepare_failure (hdr := linux_headers)
           (env_fail_at 16 (-5)) panel_probe).
  - apply env_fail_at_convention; lia.
  - reflexivity.
  - reflexivity.
Defined.

Lemma send_mipi_cmds_in_order_witness :
  Forall well_formed (firstn 5 lg_sw49410_rev1_on_cmds_1) /\
  len sentinel = 0 /\
  writes_succeed env_ok (trace panel_probe) (firstn 5 lg_sw49410_rev1_on_cmds_1) /\
  send_mipi_cmds (hdr := linux_headers) env_ok
    (Some (firstn 5 lg_sw49410_rev1_on_cmds_1 ++ sentinel :: [])) panel_probe =
  (Some 0,
   {| pinfo := pinfo panel_probe;
      trace := trace panel_probe ++
               transmission (firstn 5 lg_sw49410_rev1_on_cmds_1) |}).
Proof.
  assert (Hwf : Forall well_formed (firstn 5 lg_sw49410_rev1_on_cmds_1)).
  { repeat constructor; cbn; lia. }
  assert (Hok : writes_succeed env_ok (trace panel_probe)
                  (firstn 5 lg_sw49410_rev1_on_cmds_1)).
  { cbn. unfold env_ok. repeat split; lia. }
  split; [exact Hwf|]. split; [reflexivity|]. split; [exact Hok|].
  apply (send_mipi_cmds_in_order (hdr := linux_headers) env_ok panel_probe
           (firstn 5 lg_sw49410_rev1_on_cmds_1) [] sentinel Hwf eq_refl Hok).
Defined.

(** The table of the driver, sent on a healthy link: five writes in table
    order, each followed by its (zero) delay. *)
Example send_on_cmds_1 :
  send_mipi_cmds (hdr := linux_headers) env_ok
    (Some lg_sw49410_rev1_on_cmds_1) panel_probe =
  (Some 0,
   {| pinfo := pinfo panel_probe;
      trace := [mipi_dsi_dcs_write x26 [x02]; usleep_range 0 1000;
                mipi_dsi_dcs_write x35 [x00]; usleep_range 0 1000;
                mipi_dsi_dcs_write x53 [x0c; x30]; usleep_range 0 1000;
                mipi_dsi_dcs_write x55 [x00; x70; xdf; x00; x70; xdf];
                usleep_range 0 1000;
                mipi_dsi_dcs_write xf7 [x01; x49; x0c]; usleep_range 0 1000] |}).
Proof. vm_compute. reflexivity. Qed.

(** An address-only entry and a 20 ms delay. *)
Example send_address_only :
  send_mipi_cmds (hdr := linux_headers) env_ok
    (Some [_INIT_CMD [x14; x11]; sentinel]) panel_probe =
  (Some 0,
   {| pinfo := pinfo panel_probe;
      trace := [mipi_dsi_dcs_write x11 []; usleep_range 20000 21000] |}).
Proof. vm_compute. reflexivity. Qed.

Lemma send_mipi_cmds_stops_at_failure_witness :
  let pre := firstn 2 lg_sw49410_rev1_on_cmds_1 in
  let ck := _INIT_CMD [x00; x53; x0c; x30] in
  let post := skipn 3 lg_sw49410_rev1_on_cmds_1 in
  let env := env_fail_at 5 (-5) in
  Forall well_formed pre /\
  well_formed ck /\
  writes_succeed env (trace panel_probe) pre /\
  env (trace panel_probe ++ transmission pre ++ [write_of ck]) < 0 /\
  send_mipi_cmds (hdr := linux_headers) env (Some (pre ++ ck :: post)) panel_probe =
  (Some (env (trace panel_probe ++ transmission pre ++ [write_of ck])),
   {| pinfo := pinfo panel_probe;
      trace := trace panel_probe ++ transmission pre ++ [write_of ck] |}).
Proof.
  cbv zeta.
  assert (Hwf : Forall well_formed (firstn 2 lg_sw49410_rev1_on_cmds_1)).
  { repeat constructor; cbn; lia. }
  assert (Hck : well_formed (_INIT_CMD [x00; x53; x0c; x30])).
  { repeat constructor; cbn; lia. }
  assert (Hok : writes_succeed (env_fail_at 5 (-5)) (trace panel_probe)
                  (firstn 2 lg_sw49410_rev1_on_cmds_1)).
  { cbn. repeat split; lia. }
  assert (Hfail : env_fail_at 5 (-5)
                    (trace panel_probe ++
                     transmission (firstn 2 lg_sw49410_rev1_on_cmds_1) ++
                     [write_of (_INIT_CMD [x00; x53; x0c; x30])]) < 0).
  { cbn. lia. }
  split; [exact Hwf|]. split; [exact Hck|]. split; [exact Hok|].
  split; [exact Hfail|].
  apply (send_mipi_cmds_stops_at_failure (hdr := linux_headers)
           (env_fail_at 5 (-5)) panel_probe
           (firstn 2 lg_sw49410_rev1_on_cmds_1)
           (skipn 3 lg_sw49410_rev1_on_cmds_1)
           (_INIT_CMD [x00; x53; x0c; x30]) Hwf Hck Hok Hfail).
Defined.

(** The third of the five entries fails with -5: two writes went out before
    it, none after, and -5 comes back. *)
Example send_third_write_fails :
  send_mipi_cmds (hdr := linux_headers) (env_fail_at 5 (-5))
    (Some lg_sw49410_rev1_on_cmds_1) panel_probe =
  (Some (-5),
   {| pinfo := pinfo panel_probe;
      trace := [mipi_dsi_dcs_write x26 [x02]; usleep_range 0 1000;
                mipi_dsi_dcs_write x35 [x00]; usleep_range 0 1000;
                mipi_dsi_dcs_write x53 [x0c; x30]] |}).
Proof. vm_compute. reflexivity. Qed.



(** C6 does not hold for every call order: one [enable] on the probed panel,
    the brightness write succeeding, sets [enabled] while [prepared] is
    false. *)
Lemma enable_before_prepare_counterexample :
  reachable (hdr := linux_headers) env_ok any_order enabled_unprepared_panel /\
  enabled (pinfo enabled_unprepared_panel) = true /\
  prepared (pinfo enabled_unprepared_panel) = false.
Proof.
  split; [|split; reflexivity].
  exact (reach_call (hdr := linux_headers) env_ok any_order panel_probe enable
           (reach_probe _ _) I).
Qed.

Lemma enabled_implies_prepared_witness :
  enabled (pinfo enabled_panel) = true /\
  prepared (pinfo enabled_panel) = true.
Proof.
  assert (He : enabled (pinfo enabled_panel) = true) by (vm_compute; reflexivity).
  split; [exact He|].
  refine (enabled_implies_prepared (hdr := linux_headers) env_ok enabled_panel _ He).
  unfold enabled_panel. apply reach_call.
  - unfold prepared_panel. apply reach_call.
    + apply reach_probe.
    + intros H. discriminate H.
  - intros _. vm_compute. reflexivity.
Defined.

(** C7 does not hold for every failure: when selecting the suspend pin state
    fails with -22, [lg_panel_power_off] returns at once; it sets no load
    and does not disable the rails. *)
Lemma lg_panel_power_off_counterexample :
  lg_panel_power_off (env_fail_at 2 (-22)) panel_probe =
  (-22, {| pinfo := pinfo panel_probe;
           trace := [gpiod_set_value 0; pinctrl_select_state panel_suspend] |}) /\
  ~ In (regulator_set_load 0 100)
       (trace (snd (lg_panel_power_off (env_fail_at 2 (-22)) panel_probe))) /\
  ~ In regulator_bulk_disable
       (trace (snd (lg_panel_power_off (env_fail_at 2 (-22)) panel_probe))).
Proof.
  split; [vm_compute; reflexivity|].
  split; vm_compute; intros [H|[H|[]]]; discriminate H.
Qed.

(** A failing load setting stops the teardown too; a failing bulk disable is
    the last step anyway. *)
Example power_off_set_load_fails :
  lg_panel_power_off (env_fail_at 3 (-22)) panel_probe =
  (-22, {| pinfo := pinfo panel_probe;
           trace := [gpiod_set_value 0; pinctrl_select_state panel_suspend;
                     regulator_set_load 0 100] |}).
Proof. vm_compute. reflexivity. Qed.

Example power_off_all_succeed :
  lg_panel_power_off env_ok panel_probe =
  (0, {| pinfo := pinfo panel_probe;
         trace := [gpiod_set_value 0; pinctrl_select_state panel_suspend;
                   regulator_set_load 0 100; regulator_bulk_disable] |}).
Proof. vm_compute. reflexivity. Qed.

(** Brightness 100 goes out as 100 when unblanked and as 0 when powered
    down. *)
Example backlight_unblanked :
  trace (snd (lg_panel_backlight_update_status (hdr := linux_headers) env_ok
                unblanked_100 panel_probe)) =
  [mipi_dsi_dcs_set_display_brightness 100].
Proof. vm_compute. reflexivity. Qed.

Example backlight_powerdown :
  trace (snd (lg_panel_backlight_update_status (hdr := linux_headers) env_ok
                powerdown_100 panel_probe)) =
  [mipi_dsi_dcs_set_display_brightness 0].
Proof. vm_compute. reflexivity. Qed.

Lemma backlight_update_not_rolled_back_witness :
  let out := lg_panel_backlight_update_status (hdr := linux_headers)
               (env_fail_at 1 (-5)) unblanked_100 panel_probe in
  fst out < 0 /\
  fst out = env_fail_at 1 (-5) (trace (snd out)) /\
  trace (snd out) =
    trace panel_probe ++
    [mipi_dsi_dcs_set_display_brightness (u16 (brightness (pinfo (snd out))))] /\
  (blanked (hdr := linux_headers) unblanked_100 -> brightness (pinfo (snd out)) = 0) /\
  (~ blanked (hdr := linux_headers) unblanked_100 ->
   brightness (pinfo (snd out)) = u32 (props_brightness unblanked_100)).
Proof.
  cbv zeta.
  assert (Hneg : fst (lg_panel_backlight_update_status (hdr := linux_headers)
                        (env_fail_at 1 (-5)) unblanked_100 panel_probe) < 0)
    by (vm_compute; reflexivity).
  split; [exact Hneg|].
  exact (backlight_update_not_rolled_back (hdr := linux_headers)
           (env_fail_at 1 (-5)) unblanked_100 panel_probe Hneg).
Defined.

(** The write fails, and the field has already moved from 255 to 100. *)
Example backlight_failed_write_keeps_new_value :
  let out := lg_panel_backlight_update_status (hdr := linux_headers)
               (env_fail_at 1 (-5)) unblanked_100 panel_probe in
  brightness (pinfo panel_probe) = 255 /\
  fst out = -5 /\
  brightness (pinfo (snd out)) = 100.
Proof. vm_compute. repeat split. Qed.

(** * Properties of the rest of the driver *)

Section MoreProperties.

Context {hdr : kernel_headers}.
Variable env : list event -> Z.

(** ** Power sequencing *)

Ltac outcome_cases :=
  repeat split; intros; try lia; try reflexivity; try discriminate;
  try congruence; try (split; [lia|reflexivity]);
  try (rewrite <- !app_assoc; reflexivity).

Lemma panel_reset_at_beginning_eq (w : world) :
  panel_reset_at_beginning env w =
  let at_ tr := {| pinfo := pinfo w; trace := tr |} in
  let t1 := trace w ++ [regulator_set_load 0 1700000] in
  let t2 := t1 ++ [regulator_bulk_enable] in
  let t3 := t2 ++ [regulator_set_load 0 100] in
  let t4 := t3 ++ [regulator_bulk_disable] in
  if env t1 =? 0 then
    if env t2 <? 0 then (env t2, at_ t2)
    else if env t3 =? 0 then
      if env t4 <? 0 then (env t4, at_ t4)
      else
        (0, at_ ((((((t4 ++ [gpiod_set_value 1]) ++ [usleep_range 30000 10000]) ++
                    [gpiod_set_value 0]) ++ [usleep_range 30000 2000]) ++
                  [gpiod_set_value 1]) ++ [usleep_range 30000 10000]))
    else (env t3, at_ t3)
  else (env t1, at_ t1).
Proof.
  cbv zeta.
  unfold panel_reset_at_beginning, regulator_enable_loads,
    regulator_disable_loads, set_loads, reset_pulse, bind, call, emit, ret.
  cbn [pinfo trace].
  destruct (Z.eqb_spec (env (trace w ++ [regulator_set_load 0 1700000])) 0)
    as [E1|E1]; cbn [negb].
  - rewrite Z.eqb_refl. cbn [negb pinfo trace].
    destruct (env ((trace w ++ [regulator_set_load 0 1700000]) ++
                   [regulator_bulk_enable]) <? 0); [reflexivity|].
    cbn [pinfo trace].
    destruct (Z.eqb_spec
                (env (((trace w ++ [regulator_set_load 0 1700000]) ++
                       [regulator_bulk_enable]) ++ [regulator_set_load 0 100])) 0)
      as [E3|E3]; cbn [negb].
    + rewrite Z.eqb_refl. cbn [negb pinfo trace].
      destruct (env ((((trace w ++ [regulator_set_load 0 1700000]) ++
                       [regulator_bulk_enable]) ++ [regulator_set_load 0 100]) ++
                     [regulator_bulk_disable]) <? 0); reflexivity.
    + destruct (Z.eqb_spec
                  (env (((trace w ++ [regulator_set_load 0 1700000]) ++
                         [regulator_bulk_enable]) ++ [regulator_set_load 0 100])) 0);
        [contradiction|reflexivity].
  - destruct (Z.eqb_spec (env (trace w ++ [regulator_set_load 0 1700000])) 0);
      [contradiction|reflexivity].
Qed.

(** X1.  [panel_reset_at_beginning] issues an initial segment of its ten
    leaf calls and never touches the runtime state.  It returns 0 exactly
    when it issued all ten.  Otherwise it stopped at one of the four
    regulator calls, whose status it returns, before any call on the reset
    line: what the earlier calls did is not undone. *)
Theorem panel_reset_at_beginning_outcome (w : world) :
  let out := panel_reset_at_beginning env w in
  pinfo (snd out) = pinfo w /\
  exists n,
    (1 <= n <= 10)%nat /\
    trace (snd out) = trace w ++ firstn n panel_reset_at_beginning_calls /\
    (fst out = 0 <-> n = 10%nat) /\
    (fst out <> 0 -> (n <= 4)%nat /\ fst out = env (trace (snd out))).
Proof.
  cbv zeta. rewrite panel_reset_at_beginning_eq. cbv zeta.
  destruct (Z.eqb_spec (env (trace w ++ [regulator_set_load 0 1700000])) 0)
    as [E1|E1].
  2: { split; [reflexivity|]. exists 1%nat. cbn [fst snd pinfo trace firstn
         panel_reset_at_beginning_calls app].
       outcome_cases. }
  destruct (Z.ltb_spec (env ((trace w ++ [regulator_set_load 0 1700000]) ++
                             [regulator_bulk_enable])) 0) as [E2|E2].
  { split; [reflexivity|]. exists 2%nat. cbn [fst snd pinfo trace firstn
      panel_reset_at_beginning_calls app].
    outcome_cases. }
  destruct (Z.eqb_spec
              (env (((trace w ++ [regulator_set_load 0 1700000]) ++
                     [regulator_bulk_enable]) ++ [regulator_set_load 0 100])) 0)
    as [E3|E3].
  2: { split; [reflexivity|]. exists 3%nat. cbn [fst snd pinfo trace firstn
         panel_reset_at_beginning_calls app].
       outcome_cases. }
  destruct (Z.ltb_spec
              (env ((((trace w ++ [regulator_set_load 0 1700000]) ++
                      [regulator_bulk_enable]) ++ [regulator_set_load 0 100]) ++
                    [regulator_bulk_disable])) 0) as [E4|E4].
  { split; [reflexivity|]. exists 4%nat. cbn [fst snd pinfo trace firstn
      panel_reset_at_beginning_calls app].
    outcome_cases. }
  split; [reflexivity|]. exists 10%nat.
  cbn [fst snd pinfo trace].
  outcome_cases.
Qed.

(** X2.  [lg_panel_power_on] issues an initial segment of its nine leaf
    calls and never touches the runtime state.  It returns 0 exactly when it
    issued all nine.  Otherwise it stopped at the load setting, the bulk
    enable or the pin state selection, whose status it returns, before any
    call on the reset line, and leaves the rails as they are. *)
Theorem lg_panel_power_on_outcome (w : world) :
  let out := lg_panel_power_on env w in
  pinfo (snd out) = pinfo w /\
  exists n,
    (1 <= n <= 9)%nat /\
    trace (snd out) = trace w ++ firstn n lg_panel_power_on_calls /\
    (fst out = 0 <-> n = 9%nat) /\
    (fst out <> 0 -> (n <= 3)%nat /\ fst out = env (trace (snd out))).
Proof.
  cbv zeta. rewrite lg_panel_power_on_eq. cbv zeta.
  destruct (Z.eqb_spec (env (trace w ++ [regulator_set_load 0 1700000])) 0)
    as [E1|E1].
  2: { split; [reflexivity|]. exists 1%nat.
       cbn [fst snd pinfo trace firstn lg_panel_power_on_calls app].
       outcome_cases. }
  destruct (Z.ltb_spec (env ((trace w ++ [regulator_set_load 0 1700000]) ++
                             [regulator_bulk_enable])) 0) as [E2|E2].
  { split; [reflexivity|]. exists 2%nat.
    cbn [fst snd pinfo trace firstn lg_panel_power_on_calls app].
    outcome_cases. }
  destruct (Z.eqb_spec
              (env (((trace w ++ [regulator_set_load 0 1700000]) ++
                     [regulator_bulk_enable]) ++
                    [pinctrl_select_state panel_active])) 0) as [E3|E3].
  2: { split; [reflexivity|]. exists 3%nat.
       cbn [fst snd pinfo trace firstn lg_panel_power_on_calls app].
       outcome_cases. }
  split; [reflexivity|]. exists 9%nat. cbn [fst snd pinfo trace].
  outcome_cases.
Qed.

(** ** [lg_panel_enable] *)

(** X3.  [lg_panel_enable] on an enabled panel returns 0 and makes no leaf
    call.  Otherwise it goes through [backlight_enable] into the driver's
    own backlight callback: the device is marked unblanked, its brightness
    is stored in [pinfo->brightness] and sent with exactly one
    set-display-brightness write, whose status is returned.  [enabled] is
    set exactly when that status is 0; the stored brightness and the
    unblanking stay also when the write fails.  [prepared] and the
    first-enable flag are never touched. *)
Theorem lg_panel_enable_outcome (w : world) :
  let out := lg_panel_enable env w in
  let b := u32 (props_brightness (backlight (pinfo w))) in
  let write := mipi_dsi_dcs_set_display_brightness (u16 b) in
  let st := env (trace w ++ [write]) in
  (enabled (pinfo w) = true -> out = (0, w)) /\
  (enabled (pinfo w) = false ->
   fst out = st /\
   trace (snd out) = trace w ++ [write] /\
   brightness (pinfo (snd out)) = b /\
   props_brightness (backlight (pinfo (snd out))) =
     props_brightness (backlight (pinfo w)) /\
   props_power (backlight (pinfo (snd out))) = FB_BLANK_UNBLANK /\
   props_fb_blank (backlight (pinfo (snd out))) = FB_BLANK_UNBLANK /\
   Z.land (props_state (backlight (pinfo (snd out)))) BL_CORE_FBBLANK = 0 /\
   prepared (pinfo (snd out)) = prepared (pinfo w) /\
   first_enable (pinfo (snd out)) = first_enable (pinfo w) /\
   (enabled (pinfo (snd out)) = true <-> st = 0)).
Proof.
  cbv zeta. rewrite lg_panel_enable_eq, backlight_enable_eq. cbv zeta.
  cbn [fst snd].
  destruct (enabled (pinfo w)) eqn:Hen; split; try discriminate; intros _.
  - reflexivity.
  - destruct (Z.eqb_spec
                (env (trace w ++
                      [mipi_dsi_dcs_set_display_brightness
                         (u16 (u32 (props_brightness (backlight (pinfo w)))))]))
                0) as [E|E];
      cbn [fst snd pinfo trace brightness backlight prepared first_enable
           enabled set_enabled set_brightness set_backlight props_brightness
           props_power props_fb_blank props_state];
      rewrite ?backlight_enable_clears_fbblank, ?Hen;
      repeat split; auto; intros; congruence.
Qed.

(** ** Properties every lifecycle call keeps

    A property of worlds is kept by all four callbacks as soon as it
    survives each leaf call other than a reset-line write and the suspend
    pin state, the reset sequence as a whole, the reset-high of the
    [poweroff:] label, the three flag updates, and the writes of
    [lg_panel_enable] to the brightness field and the backlight props. *)

Section Preservation.

Variable I : world -> Prop.
Hypothesis I_event :
  forall e, is_gpio e = false -> e <> pinctrl_select_state panel_suspend ->
            stable I e.
Hypothesis I_pulse : preserves I reset_pulse.
Hypothesis I_high : stable I (gpiod_set_value 1).
Hypothesis I_first_enable : stable_update I (set_first_enable false).
Hypothesis I_prepared : stable_update I (set_prepared true).
Hypothesis I_enabled : stable_update I (set_enabled true).
Hypothesis I_brightness : forall v, stable_update I (set_brightness v).
Hypothesis I_backlight : forall bl, stable_update I (set_backlight bl).

Lemma preserves_ret {A : Type} (a : A) : preserves I (ret a).
Proof. intros w Hw. exact Hw. Qed.

Lemma preserves_bind {A B : Type} (m : M A) (k : A -> M B) :
  preserves I m -> (forall a, preserves I (k a)) -> preserves I (bind m k).
Proof.
  intros Hm Hk w Hw. unfold bind. specialize (Hm w Hw).
  destruct (m w) as [a w']. exact (Hk a w' Hm).
Qed.

Lemma preserves_gets {A : Type} (f : panel_info -> A) : preserves I (gets f).
Proof. intros w Hw. exact Hw. Qed.

Lemma preserves_modify (f : panel_info -> panel_info) :
  stable_update I f -> preserves I (modify f).
Proof. intros Hf w Hw. exact (Hf w Hw). Qed.

Lemma preserves_call (e : event) :
  is_gpio e = false -> e <> pinctrl_select_state panel_suspend ->
  preserves I (call env e).
Proof. intros Hg Hs w Hw. exact (I_event e Hg Hs w Hw). Qed.

Lemma preserves_emit (e : event) :
  is_gpio e = false -> e <> pinctrl_select_state panel_suspend ->
  preserves I (emit e).
Proof. intros Hg Hs w Hw. exact (I_event e Hg Hs w Hw). Qed.

Lemma preserves_poweroff (err : Z) : preserves I (poweroff err).
Proof. intros w Hw. exact (I_high w Hw). Qed.

Ltac keep :=
  repeat first
    [ apply preserves_ret
    | apply preserves_gets
    | apply preserves_poweroff
    | exact I_pulse
    | apply preserves_modify;
        first [assumption | apply I_brightness | apply I_backlight]
    | apply preserves_call; [reflexivity|discriminate]
    | apply preserves_emit; [reflexivity|discriminate]
    | apply preserves_bind; [|intros ?]
    | match goal with
      | |- preserves _ (if ?b then _ else _) => destruct b
      end ].

Lemma preserves_set_loads (loads : list Z) :
  forall i, preserves I (set_loads env i loads).
Proof.
  induction loads as [|l loads IH]; intros i; cbn [set_loads]; keep.
  apply IH.
Qed.

Lemma preserves_panel_reset_at_beginning :
  preserves I (panel_reset_at_beginning env).
Proof.
  unfold panel_reset_at_beginning. keep; apply preserves_set_loads.
Qed.

Lemma preserves_lg_panel_power_on : preserves I (lg_panel_power_on env).
Proof.
  unfold lg_panel_power_on, panel_set_pinctrl_state. keep;
    apply preserves_set_loads.
Qed.

Lemma preserves_dsi_dcs_write_seqs (ds : list (list byte)) (k : M Z) :
  preserves I k -> preserves I (dsi_dcs_write_seqs env ds k).
Proof.
  intros Hk. induction ds as [|d ds IH]; cbn [dsi_dcs_write_seqs].
  - exact Hk.
  - unfold dsi_dcs_write_seq. keep. exact IH.
Qed.

Lemma preserves_lg_panel_prepare_rest :
  preserves I (lg_panel_prepare_rest env).
Proof.
  unfold lg_panel_prepare_rest. keep;
    first [apply preserves_lg_panel_power_on
          |apply preserves_dsi_dcs_write_seqs; unfold dsi_dcs_write_seq; keep].
Qed.

Lemma preserves_lg_panel_prepare : preserves I (lg_panel_prepare env).
Proof.
  unfold lg_panel_prepare. keep;
    first [apply preserves_panel_reset_at_beginning
          |apply preserves_lg_panel_prepare_rest].
Qed.

Lemma preserves_lg_panel_enable : preserves I (lg_panel_enable env).
Proof.
  unfold lg_panel_enable, backlight_enable, lg_panel_backlight_update_status.
  keep.
Qed.

Lemma preserves_panel_funcs (f : drm_panel_func) :
  preserves I (panel_funcs env f).
Proof.
  destruct f; cbn [panel_funcs].
  - intros w Hw. exact Hw.
  - intros w Hw. exact Hw.
  - apply preserves_lg_panel_prepare.
  - apply preserves_lg_panel_enable.
Qed.

Lemma preserves_run_calls (fs : list drm_panel_func) (w : world) :
  I w -> I (run_calls env fs w).
Proof.
  revert w. induction fs as [|f fs IH]; intros w Hw; cbn [run_calls].
  - exact Hw.
  - apply IH. now apply preserves_panel_funcs.
Qed.

End Preservation.

(** ** The order of the leaf calls of [lg_panel_prepare] *)

Lemma prefix_outcome_failure (e : event) (rest tl : list event) (w : world) (r : Z) :
  r < 0 ->
  tl = [] \/ tl = [gpiod_set_value 1] ->
  prefix_outcome (e :: rest) w
    (r, {| pinfo := pinfo w; trace := (trace w ++ [e]) ++ tl |}).
Proof.
  intros Hr Htl. exists 1%nat, tl. cbn [fst snd pinfo trace firstn length].
  split; [lia|]. split; [now rewrite <- app_assoc|]. right. auto.
Qed.

Lemma prefix_outcome_cons (e : event) (rest : list event) (w : world)
    (out : Z * world) :
  prefix_outcome rest {| pinfo := pinfo w; trace := trace w ++ [e] |} out ->
  prefix_outcome (e :: rest) w out.
Proof.
  intros (n & tl & Hn & Ht & Hc). exists (S n), tl.
  cbn [pinfo trace firstn length] in *. split; [lia|]. split.
  - rewrite Ht, <- app_assoc. reflexivity.
  - destruct Hc as [(H0 & Hlen & Htl & Hp)|Hc]; [left|right; exact Hc].
    repeat split; auto.
Qed.

Lemma prefix_run_call (e : event) (rest : list event) (k : M Z) :
  prefix_run rest k ->
  prefix_run (e :: rest) (r <- call env e ;; if r <? 0 then ret r else k).
Proof.
  intros Hk w. unfold bind, call. cbn [pinfo trace].
  destruct (Z.ltb_spec (env (trace w ++ [e])) 0) as [Hneg|Hpos].
  - unfold ret. generalize dependent (env (trace w ++ [e])). intros r Hneg.
    rewrite <- (app_nil_r (trace w ++ [e])).
    apply prefix_outcome_failure; auto.
  - apply prefix_outcome_cons, Hk.
Qed.

Lemma prefix_run_call_poweroff (e : event) (rest : list event) (k : M Z) :
  prefix_run rest k ->
  prefix_run (e :: rest)
    (err <- call env e ;; if err <? 0 then poweroff err else k).
Proof.
  intros Hk w. unfold bind, call. cbn [pinfo trace].
  destruct (Z.ltb_spec (env (trace w ++ [e])) 0) as [Hneg|Hpos].
  - unfold poweroff, bind, emit, ret. cbn [pinfo trace].
    apply prefix_outcome_failure; auto.
  - apply prefix_outcome_cons, Hk.
Qed.

Lemma prefix_run_emit (e : event) (rest : list event) (k : M Z) :
  prefix_run rest k -> prefix_run (e :: rest) (emit e ;;; k).
Proof. intros Hk w. unfold bind, emit. apply prefix_outcome_cons, Hk. Qed.

Lemma prefix_run_write_seqs (ds : list (list byte)) (rest : list event) (k : M Z) :
  prefix_run rest k ->
  prefix_run (map mipi_dsi_dcs_write_buffer ds ++ rest)
    (dsi_dcs_write_seqs env ds k).
Proof.
  intros Hk. induction ds as [|d ds IH]; cbn [dsi_dcs_write_seqs map app].
  - exact Hk.
  - unfold dsi_dcs_write_seq. now apply prefix_run_call.
Qed.

Lemma prefix_run_prepared : prefix_run [] (modify (set_prepared true) ;;; ret 0).
Proof.
  intros w. exists 0%nat, []. unfold bind, modify, ret.
  cbn [fst snd pinfo trace firstn length app].
  split; [lia|]. split; [now rewrite app_nil_r|]. left. auto.
Qed.

Lemma lg_panel_prepare_calls_length (d : Z) :
  length (lg_panel_prepare_calls d) = 64%nat.
Proof. reflexivity. Qed.


Lemma lg_panel_prepare_rest_runs_prefix (w : world) :
  status_convention env ->
  prepared (pinfo w) = false ->
  let out := lg_panel_prepare_rest env w in
  let calls := lg_panel_prepare_calls (init_delay_us (pinfo w)) in
  exists n tl,
    (2 <= n <= 64)%nat /\
    trace (snd out) = trace w ++ firstn n calls ++ tl /\
    ((fst out = 0 /\ n = 64%nat /\ tl = [] /\
      pinfo (snd out) = set_prepared true (pinfo w)) \/
     (fst out < 0 /\ (tl = [] \/ tl = [gpiod_set_value 1]) /\
      pinfo (snd out) = pinfo w)).
Proof.
  intros Hc Hp. cbv zeta.
  pattern (lg_panel_prepare_rest env w).
  match goal with |- ?P _ => set (Q := P) end.
  unfold lg_panel_prepare_rest.
  unfold bind at 1. unfold gets at 1. rewrite Hp.
  unfold bind at 1. unfold gets at 1.
  unfold bind at 1. unfold emit at 1. cbn [pinfo trace].
  set (d := init_delay_us (pinfo w)) in *.
  unfold bind at 1. rewrite lg_panel_power_on_eq. cbv zeta. cbn [pinfo trace].
  set (t0 := trace w ++ [usleep_range d d]).
  set (t1 := t0 ++ [regulator_set_load 0 1700000]).
  set (t2 := t1 ++ [regulator_bulk_enable]).
  set (t3 := t2 ++ [pinctrl_select_state panel_active]).
  pose proof (Hc t0 (regulator_set_load 0 1700000)) as Hc1.
  pose proof (Hc t2 (pinctrl_select_state panel_active)) as Hc3.
  cbn in Hc1, Hc3. fold t1 in Hc1. fold t3 in Hc3.
  destruct (Z.eqb_spec (env t1) 0) as [E1|E1].
  2: { cbv iota beta. destruct (Z.ltb_spec (env t1) 0); [|lia].
       subst Q. cbv beta.
       exists 2%nat, [gpiod_set_value 1].
       unfold poweroff, bind, emit, ret. cbn [fst snd pinfo trace].
       split; [lia|]. split; [|right; auto].
       subst t1 t0. rewrite <- !app_assoc. reflexivity. }
  destruct (Z.ltb_spec (env t2) 0) as [E2|E2].
  { cbv iota beta. destruct (Z.ltb_spec (env t2) 0); [|lia].
    subst Q. cbv beta. exists 3%nat, [gpiod_set_value 1].
    unfold poweroff, bind, emit, ret. cbn [fst snd pinfo trace].
    split; [lia|]. split; [|right; auto].
    subst t2 t1 t0. rewrite <- !app_assoc. reflexivity. }
  destruct (Z.eqb_spec (env t3) 0) as [E3|E3].
  2: { cbv iota beta. destruct (Z.ltb_spec (env t3) 0); [|lia].
       subst Q. cbv beta. exists 4%nat, [gpiod_set_value 1].
       unfold poweroff, bind, emit, ret. cbn [fst snd pinfo trace].
       split; [lia|]. split; [|right; auto].
       subst t3 t2 t1 t0. rewrite <- !app_assoc. reflexivity. }
  cbv iota beta. cbn [Z.ltb Z.compare].
  match goal with
  | |- Q (_ ?w') => set (w9 := w')
  end.
  assert (H9 : forall k, prefix_run lg_panel_prepare_dcs_calls k -> Q (k w9)).
  { intros k Hk. destruct (Hk w9) as (n & tl & Hn & Ht & Hcases).
    subst Q. cbv beta.
    exists (length (usleep_range d d :: lg_panel_power_on_calls) + n)%nat, tl.
    split; [cbn [length lg_panel_power_on_calls reset_calls app] in *;
            change (length lg_panel_prepare_dcs_calls) with 54%nat in Hn; lia|].
    split.
    - rewrite Ht.
      change (lg_panel_prepare_calls d)
        with ((usleep_range d d :: lg_panel_power_on_calls)
              ++ lg_panel_prepare_dcs_calls).
      rewrite firstn_app_2. subst w9 t3 t2 t1 t0. cbn [trace].
      rewrite <- !app_assoc. reflexivity.
    - destruct Hcases as [(H0 & Hlen & Htl & Hpi)|Hneg]; [left|right; exact Hneg].
      repeat split; auto. rewrite Hlen. reflexivity. }
  apply H9.
  unfold lg_panel_prepare_dcs_calls.
  repeat first
    [ apply prefix_run_prepared
    | apply prefix_run_write_seqs
    | apply prefix_run_call_poweroff
    | apply prefix_run_call
    | apply prefix_run_emit ].
Qed.

(** X4.  On an unprepared panel, with the regulator and pinctrl leaves
    returning 0 or a negative errno, the leaf calls of [lg_panel_prepare] are
    always an initial segment, at least two calls long, of one fixed sequence
    of 64 (settle delay, power-on, DCS setup, the 44 init buffers, sleep
    exit, compression mode, black frame, display on, the final delays),
    followed by nothing or by the reset-high of the [poweroff:] label.
    Nothing is skipped or reordered.  The result is 0 with all 64 issued and
    [prepared] set, or negative with the runtime state untouched. *)
Theorem lg_panel_prepare_calls_prefix (w : world) :
  status_convention env ->
  first_enable (pinfo w) = false ->
  prepared (pinfo w) = false ->
  let out := lg_panel_prepare env w in
  let calls := lg_panel_prepare_calls (init_delay_us (pinfo w)) in
  exists n tl,
    (2 <= n <= 64)%nat /\
    trace (snd out) = trace w ++ firstn n calls ++ tl /\
    ((fst out = 0 /\ n = 64%nat /\ tl = [] /\
      pinfo (snd out) = set_prepared true (pinfo w)) \/
     (fst out < 0 /\ (tl = [] \/ tl = [gpiod_set_value 1]) /\
      pinfo (snd out) = pinfo w)).
Proof.
  intros Hc Hfe Hp. cbv zeta.
  rewrite lg_panel_prepare_not_first by assumption.
  exact (lg_panel_prepare_rest_runs_prefix w Hc Hp).
Qed.


Lemma failures_tail_nil (hist tl : list event) :
  tl = [] \/ tl = [gpiod_set_value 1] -> failures env hist tl = [].
Proof. intros [->| ->]; reflexivity. Qed.

(** X5.  Under the same conditions [lg_panel_prepare] succeeds exactly when
    no call of the 64-call sequence is answered with a negative status: it
    then returns 0, has issued the whole sequence in order and nothing else,
    and has set [prepared] and changed no other field. *)
Theorem lg_panel_prepare_success (w : world) :
  status_convention env ->
  first_enable (pinfo w) = false ->
  prepared (pinfo w) = false ->
  let calls := lg_panel_prepare_calls (init_delay_us (pinfo w)) in
  failures env (trace w) calls = [] <->
  lg_panel_prepare env w =
  (0, {| pinfo := set_prepared true (pinfo w); trace := trace w ++ calls |}).
Proof.
  intros Hc Hfe Hp. cbv zeta.
  destruct (lg_panel_prepare_rest_runs_prefix w Hc Hp)
    as (n & tl & Hn & Ht & Hcases).
  cbv zeta in Ht, Hcases.
  rewrite <- lg_panel_prepare_not_first in Ht, Hcases by assumption.
  pose proof (lg_panel_prepare_rest_spec env w Hp) as (new & Ht' & _ & Hcases').
  rewrite <- lg_panel_prepare_not_first in Ht', Hcases' by assumption.
  assert (Hnew : new = firstn n (lg_panel_prepare_calls (init_delay_us (pinfo w)))
                       ++ tl).
  { apply (app_inv_head (trace w)). now rewrite <- Ht', Ht. }
  destruct (lg_panel_prepare env w) as [r w'].
  cbn [fst snd] in *. split.
  - intros Hnone.
    destruct Hcases as [(-> & -> & -> & Hpi)|(Hneg & Htl & _)].
    + rewrite <- (lg_panel_prepare_calls_length (init_delay_us (pinfo w))),
        firstn_all, app_nil_r in Ht.
      destruct w' as [p' tr']. cbn [pinfo trace] in *. now subst.
    + exfalso.
      destruct Hcases' as [(H0 & _)|(_ & Hf & _)]; [lia|].
      rewrite Hnew, failures_app, (failures_tail_nil _ tl Htl), app_nil_r in Hf.
      rewrite <- (firstn_skipn n (lg_panel_prepare_calls (init_delay_us (pinfo w))))
        in Hnone.
      rewrite failures_app, Hf in Hnone. discriminate.
  - intros Heq. injection Heq as -> ->. cbn [pinfo trace] in *.
    destruct Hcases' as [(_ & Hf & _)|(Hneg & _)]; [|lia].
    apply app_inv_head in Ht'. now subst new.
Qed.

(** X6.  Under the same conditions no command reaches the panel before the
    power-on is complete: if [lg_panel_prepare] made any DCS call at all, its
    calls start with the settle delay and the whole of the power-on
    sequence, reset sequence included. *)
Theorem lg_panel_prepare_powers_on_first (w : world) (new : list event) (e : event) :
  status_convention env ->
  first_enable (pinfo w) = false ->
  prepared (pinfo w) = false ->
  trace (snd (lg_panel_prepare env w)) = trace w ++ new ->
  In e new -> is_dcs e = true ->
  exists rest,
    new = usleep_range (init_delay_us (pinfo w)) (init_delay_us (pinfo w))
          :: lg_panel_power_on_calls ++ rest.
Proof.
  intros Hc Hfe Hp Hnew Hin Hdcs.
  destruct (lg_panel_prepare_rest_runs_prefix w Hc Hp)
    as (n & tl & Hn & Ht & Hcases).
  cbv zeta in Ht, Hcases.
  rewrite <- lg_panel_prepare_not_first in Ht, Hcases by assumption.
  rewrite Hnew in Ht. apply app_inv_head in Ht.
  set (d := init_delay_us (pinfo w)) in *.
  assert (Htl : tl = [] \/ tl = [gpiod_set_value 1]).
  { destruct Hcases as [(_ & _ & -> & _)|(_ & Htl & _)]; auto. }
  change (lg_panel_prepare_calls d)
    with ((usleep_range d d :: lg_panel_power_on_calls)
          ++ lg_panel_prepare_dcs_calls) in Ht.
  destruct (Nat.le_gt_cases 10 n) as [Hge|Hlt].
  - replace n with (length (usleep_range d d :: lg_panel_power_on_calls)
                    + (n - 10))%nat in Ht by (cbn; lia).
    rewrite firstn_app_2 in Ht.
    exists (firstn (n - 10) lg_panel_prepare_dcs_calls ++ tl).
    rewrite Ht, <- app_assoc. reflexivity.
  - exfalso. rewrite firstn_app in Ht.
    replace (n - length (usleep_range d d :: lg_panel_power_on_calls))%nat
      with 0%nat in Ht by (cbn; lia).
    cbn [firstn] in Ht. rewrite app_nil_r in Ht. subst new.
    apply in_app_or in Hin. destruct Hin as [Hin|Hin].
    + assert (Hin' : In e (usleep_range d d :: lg_panel_power_on_calls)).
      { rewrite <- (firstn_skipn n (usleep_range d d :: lg_panel_power_on_calls)).
        apply in_or_app. now left. }
      cbn in Hin'.
      repeat (destruct Hin' as [<-|Hin']; [discriminate|]). exact Hin'.
    + destruct Htl as [->| ->]; [destruct Hin|].
      destruct Hin as [<-|[]]. discriminate.
Qed.

(** X7.  A failed [lg_panel_prepare] leaves the panel unprepared, so the
    next call starts over with the settle delay and the power-on, although
    nothing switched the panel off in between. *)
Theorem failed_prepare_is_retried_from_power_on (w : world) :
  status_convention env ->
  first_enable (pinfo w) = false ->
  prepared (pinfo w) = false ->
  fst (lg_panel_prepare env w) < 0 ->
  let w1 := snd (lg_panel_prepare env w) in
  let d := init_delay_us (pinfo w) in
  prepared (pinfo w1) = false /\
  exists rest,
    trace (snd (lg_panel_prepare env w1)) =
    trace w1 ++ usleep_range d d :: regulator_set_load 0 1700000 :: rest.
Proof.
  intros Hc Hfe Hp Hneg. cbv zeta.
  destruct (lg_panel_prepare_rest_runs_prefix w Hc Hp)
    as (n & tl0 & _ & _ & Hcases).
  cbv zeta in Hcases.
  rewrite <- lg_panel_prepare_not_first in Hcases by assumption.
  destruct Hcases as [(H0 & _)|(_ & _ & Hpi)]; [lia|].
  set (w1 := snd (lg_panel_prepare env w)) in *.
  assert (Hfe1 : first_enable (pinfo w1) = false) by now rewrite Hpi.
  assert (Hp1 : prepared (pinfo w1) = false) by now rewrite Hpi.
  split; [exact Hp1|].
  destruct (lg_panel_prepare_rest_runs_prefix w1 Hc Hp1)
    as (m & tl1 & Hm & Ht1 & _).
  cbv zeta in Ht1.
  rewrite <- lg_panel_prepare_not_first in Ht1 by assumption.
  rewrite Hpi in Ht1.
  destruct m as [|[|m]]; try lia.
  exists (firstn m (skipn 2 (lg_panel_prepare_calls (init_delay_us (pinfo w))))
          ++ tl1).
  rewrite Ht1. reflexivity.
Qed.


(** ** What the lifecycle calls keep *)

(** A property of the runtime state alone that survives the three flag
    updates is kept by [lg_panel_prepare] and its pieces; if it also
    survives the writes of [lg_panel_enable] to the brightness field and the
    backlight props, it is kept by every sequence of lifecycle calls. *)
Section PinfoProperty.

Variable P : panel_info -> Prop.
Hypothesis P_first_enable : forall p, P p -> P (set_first_enable false p).
Hypothesis P_prepared : forall p, P p -> P (set_prepared true p).
Hypothesis P_enabled : forall p, P p -> P (set_enabled true p).
Hypothesis P_brightness : forall v p, P p -> P (set_brightness v p).
Hypothesis P_backlight : forall bl p, P p -> P (set_backlight bl p).

Let I (w : world) : Prop := P (pinfo w).

Lemma pinfo_property_event (e : event) : stable I e.
Proof. intros w Hw. exact Hw. Qed.

Lemma pinfo_property_pulse : preserves I reset_pulse.
Proof. intros w Hw. exact Hw. Qed.

Lemma pinfo_property_panel_reset_at_beginning :
  preserves I (panel_reset_at_beginning env).
Proof.
  apply preserves_panel_reset_at_beginning.
  - intros e _ _. apply pinfo_property_event.
  - apply pinfo_property_pulse.
Qed.

Lemma pinfo_property_lg_panel_prepare_rest :
  preserves I (lg_panel_prepare_rest env).
Proof.
  apply preserves_lg_panel_prepare_rest.
  - intros e _ _. apply pinfo_property_event.
  - apply pinfo_property_pulse.
  - apply pinfo_property_event.
  - intros w Hw. apply P_prepared, Hw.
Qed.

Lemma pinfo_property_lg_panel_prepare : preserves I (lg_panel_prepare env).
Proof.
  apply preserves_lg_panel_prepare.
  - intros e _ _. apply pinfo_property_event.
  - apply pinfo_property_pulse.
  - apply pinfo_property_event.
  - intros w Hw. apply P_first_enable, Hw.
  - intros w Hw. apply P_prepared, Hw.
Qed.

Lemma pinfo_property_run_calls (fs : list drm_panel_func) (w : world) :
  P (pinfo w) -> P (pinfo (run_calls env fs w)).
Proof.
  apply (preserves_run_calls I).
  - intros e _ _. apply pinfo_property_event.
  - apply pinfo_property_pulse.
  - apply pinfo_property_event.
  - intros w' Hw. apply P_first_enable, Hw.
  - intros w' Hw. apply P_prepared, Hw.
  - intros w' Hw. apply P_enabled, Hw.
  - intros v w' Hw. apply P_brightness, Hw.
  - intros bl w' Hw. apply P_backlight, Hw.
Qed.

End PinfoProperty.

(** X8.  Whatever the state and whatever the outcome, the first-enable flag
    is clear after a call of [lg_panel_prepare], and no later lifecycle call
    sets it again. *)
Theorem first_enable_is_consumed (w : world) (fs : list drm_panel_func) :
  first_enable (pinfo (run_calls env (prepare :: fs) w)) = false.
Proof.
  cbn [run_calls panel_funcs].
  apply (pinfo_property_run_calls (fun p => first_enable p = false)); auto.
  unfold lg_panel_prepare. unfold bind at 1. unfold gets at 1.
  destruct (first_enable (pinfo w)) eqn:Hfe.
  - unfold bind at 1. unfold modify at 1.
    set (w0 := {| pinfo := set_first_enable false (pinfo w); trace := trace w |}).
    unfold bind.
    pose proof (pinfo_property_panel_reset_at_beginning
                  (fun p => first_enable p = false) w0 eq_refl) as Hr.
    destruct (panel_reset_at_beginning env w0) as [err w1]. cbn [snd] in Hr.
    destruct (err <? 0); [exact Hr|].
    apply (pinfo_property_lg_panel_prepare_rest
             (fun p => first_enable p = false)); auto.
  - apply (pinfo_property_lg_panel_prepare_rest
             (fun p => first_enable p = false)); auto.
Qed.

(** X9.  When the flag is set and the one-time reset fails,
    [lg_panel_prepare] returns the error of the reset having done nothing
    else than clearing the flag: no settle delay, no power-on, no command.
    The reset is not tried again: the next call goes straight to the rest of
    [lg_panel_prepare]. *)
Theorem failed_first_reset_is_not_retried (w : world) :
  let w0 := {| pinfo := set_first_enable false (pinfo w); trace := trace w |} in
  first_enable (pinfo w) = true ->
  fst (panel_reset_at_beginning env w0) < 0 ->
  lg_panel_prepare env w = panel_reset_at_beginning env w0 /\
  pinfo (snd (lg_panel_prepare env w)) = set_first_enable false (pinfo w) /\
  lg_panel_prepare env (snd (lg_panel_prepare env w)) =
  lg_panel_prepare_rest env (snd (lg_panel_prepare env w)).
Proof.
  cbv zeta. intros Hfe Hneg.
  set (w0 := {| pinfo := set_first_enable false (pinfo w); trace := trace w |}) in *.
  assert (Heq : lg_panel_prepare env w = panel_reset_at_beginning env w0).
  { unfold lg_panel_prepare. unfold bind at 1. unfold gets at 1. rewrite Hfe.
    unfold bind at 1. unfold modify at 1. fold w0. unfold bind.
    destruct (panel_reset_at_beginning env w0) as [err w1]. cbn [fst] in Hneg.
    destruct (Z.ltb_spec err 0); [reflexivity|lia]. }
  rewrite Heq.
  pose proof (pinfo_property_panel_reset_at_beginning
                (fun p => p = pinfo w0) w0 eq_refl) as Hpi.
  cbv beta in Hpi. cbn [pinfo w0] in Hpi.
  split; [reflexivity|]. split; [exact Hpi|].
  apply lg_panel_prepare_not_first. now rewrite Hpi.
Qed.

(** X10.  Once a panel is prepared (with the flag clear, as in every
    reachable state), every lifecycle call is a no-op that makes no leaf
    call, as long as [enable] is only among them when the panel is enabled
    already: suspend/resume cycles of [unprepare] and [prepare] do nothing
    at all. *)
Theorem prepared_panel_is_inert (w : world) (fs : list drm_panel_func) :
  first_enable (pinfo w) = false ->
  prepared (pinfo w) = true ->
  (In enable fs -> enabled (pinfo w) = true) ->
  run_calls env fs w = w.
Proof.
  intros Hfe Hp. induction fs as [|f fs IH]; intros Hen; [reflexivity|].
  cbn [run_calls].
  assert (Hf : panel_funcs env f w = (0, w)).
  { destruct f; cbn [panel_funcs]; try reflexivity.
    - now apply lg_panel_prepare_prepared.
    - unfold lg_panel_enable, bind, gets. rewrite (Hen (or_introl eq_refl)).
      reflexivity. }
  rewrite Hf. cbn [snd]. apply IH. intros Hin. apply Hen. now right.
Qed.

(** X11.  No lifecycle call clears a flag: from any state and under any
    sequence of calls, [prepared] once true stays true, and so does
    [enabled]. *)
Theorem lifecycle_flags_are_sticky (w : world) (fs : list drm_panel_func) :
  (prepared (pinfo w) = true -> prepared (pinfo (run_calls env fs w)) = true) /\
  (enabled (pinfo w) = true -> enabled (pinfo (run_calls env fs w)) = true).
Proof.
  split.
  - apply (pinfo_property_run_calls (fun p => prepared p = true)); auto.
  - apply (pinfo_property_run_calls (fun p => enabled p = true)); auto.
Qed.

(** X12.  No lifecycle call writes [max_brightness] or the settle delay.
    The brightness field and the backlight props are written by
    [lg_panel_enable] only: under any sequence of [prepare], [unprepare] and
    [disable] calls they stay as they are ([lg_panel_prepare] sends
    brightness 0xff to the panel without recording it). *)
Theorem lifecycle_keeps_brightness (w : world) (fs : list drm_panel_func) :
  max_brightness (pinfo (run_calls env fs w)) = max_brightness (pinfo w) /\
  init_delay_us (pinfo (run_calls env fs w)) = init_delay_us (pinfo w) /\
  (~ In enable fs ->
   brightness (pinfo (run_calls env fs w)) = brightness (pinfo w) /\
   backlight (pinfo (run_calls env fs w)) = backlight (pinfo w)).
Proof.
  split; [|split].
  - apply (pinfo_property_run_calls
             (fun p => max_brightness p = max_brightness (pinfo w))); auto.
  - apply (pinfo_property_run_calls
             (fun p => init_delay_us p = init_delay_us (pinfo w))); auto.
  - set (P := fun p => brightness p = brightness (pinfo w) /\
                       backlight p = backlight (pinfo w)).
    assert (H : forall fs' w', ~ In enable fs' -> P (pinfo w') ->
                               P (pinfo (run_calls env fs' w'))).
    { induction fs' as [|f fs' IH]; intros w' Hne Hw; [exact Hw|].
      cbn [run_calls]. apply IH.
      - intros Hin. apply Hne. now right.
      - destruct f; cbn [panel_funcs]; try exact Hw.
        + apply (pinfo_property_lg_panel_prepare P); subst P; cbv beta; auto.
        + exfalso. apply Hne. now left. }
    intros Hne. apply (H fs w Hne). split; reflexivity.
Qed.

(** X13.  The reset line is never left low: if it was high before (as
    [panel_add] requests it, with GPIOD_OUT_HIGH), it is high after any
    sequence of lifecycle calls, whatever fails in them. *)
Theorem reset_line_is_never_left_low (w : world) (fs : list drm_panel_func) :
  reset_line (Some 1) (trace w) = Some 1 ->
  reset_line (Some 1) (trace (run_calls env fs w)) = Some 1.
Proof.
  apply (preserves_run_calls
           (fun w => reset_line (Some 1) (trace w) = Some 1)).
  - intros e Hg _ w' Hw. cbn [trace]. rewrite reset_line_app, Hw.
    destruct e; try reflexivity; discriminate.
  - intros w' Hw. unfold reset_pulse, bind, emit. cbn [snd trace].
    rewrite !reset_line_app. reflexivity.
  - intros w' Hw. cbn [trace]. rewrite reset_line_app. reflexivity.
  - intros w' Hw. exact Hw.
  - intros w' Hw. exact Hw.
  - intros w' Hw. exact Hw.
  - intros v w' Hw. exact Hw.
  - intros bl w' Hw. exact Hw.
Qed.

(** X14.  The panel is never powered off: [lg_panel_power_off] always
    selects the suspend pin state, and no sequence of lifecycle calls ever
    does. *)
Theorem panel_is_never_powered_off (w : world) (fs : list drm_panel_func) :
  In (pinctrl_select_state panel_suspend)
     (trace (snd (lg_panel_power_off env w))) /\
  (~ In (pinctrl_select_state panel_suspend) (trace w) ->
   ~ In (pinctrl_select_state panel_suspend) (trace (run_calls env fs w))).
Proof.
  split.
  - unfold lg_panel_power_off, panel_set_pinctrl_state, regulator_disable_loads,
      set_loads, bind, call, emit, ret. cbn [pinfo trace].
    repeat match goal with
           | |- context [if ?b then _ else _] =>
               destruct b; cbn [negb snd trace pinfo]
           end;
      rewrite ?in_app_iff; cbn [In]; intuition auto.
  - apply (preserves_run_calls
             (fun w => ~ In (pinctrl_select_state panel_suspend) (trace w))).
    + intros e _ Hne w' Hw Hin. cbn [trace] in Hin.
      apply in_app_or in Hin. destruct Hin as [Hin|[Hin|[]]]; auto.
    + intros w' Hw Hin. unfold reset_pulse, bind, emit in Hin.
      cbn [snd trace] in Hin. rewrite !in_app_iff in Hin. cbn [In] in Hin.
      intuition discriminate.
    + intros w' Hw Hin. cbn [trace] in Hin. rewrite in_app_iff in Hin.
      cbn [In] in Hin. intuition discriminate.
    + intros w' Hw. exact Hw.
    + intros w' Hw. exact Hw.
    + intros w' Hw. exact Hw.
    + intros v w' Hw. exact Hw.
    + intros bl w' Hw. exact Hw.
Qed.


(** ** [send_mipi_cmds] on arbitrary tables *)

Lemma u8_range (b : byte) : 0 <= u8 b <= 255.
Proof.
  unfold u8. pose proof (Byte.to_N_bounded b) as H. lia.
Qed.

(** X15.  Whatever the table, well-formed or not, [send_mipi_cmds] never
    touches the runtime state and issues nothing but DCS writes and delays
    of 0 to 255 ms, each delay with an upper bound 1 ms above its lower
    bound. *)
Theorem send_mipi_cmds_footprint (cmds : option (list panel_cmd)) (w : world) :
  let out := send_mipi_cmds env cmds w in
  pinfo (snd out) = pinfo w /\
  exists new, trace (snd out) = trace w ++ new /\ Forall send_event new.
Proof.
  cbv zeta. destruct cmds as [a|]; cbn [send_mipi_cmds].
  2: { split; [reflexivity|]. exists []. now rewrite app_nil_r. }
  revert w. induction a as [|c a IH]; intros w; cbn [send_mipi_cmds_from].
  - split; [reflexivity|]. exists []. now rewrite app_nil_r.
  - destruct (len c =? 0).
    { split; [reflexivity|]. exists []. now rewrite app_nil_r. }
    destruct (cmd_operands c) as [[[addr payload] d0]|].
    2: { split; [reflexivity|]. exists []. now rewrite app_nil_r. }
    unfold bind, call, emit. cbn [pinfo trace].
    destruct (env (trace w ++ [mipi_dsi_dcs_write addr payload]) <? 0).
    + split; [reflexivity|]. exists [mipi_dsi_dcs_write addr payload].
      split; [reflexivity|]. repeat constructor.
    + match goal with |- context [send_mipi_cmds_from env a ?w'] =>
        destruct (IH w') as [Hp (new & Ht & Hall)] end.
      cbn [pinfo trace] in Hp, Ht. split; [exact Hp|].
      exists (mipi_dsi_dcs_write addr payload
              :: usleep_range (u8 d0 * 1000) ((1 + u8 d0) * 1000) :: new).
      split.
      * etransitivity; [exact Ht|]. rewrite <- !app_assoc. reflexivity.
      * constructor; [exact I|]. constructor; [|exact Hall].
        pose proof (u8_range d0). cbn [send_event]. lia.
Qed.

(** X16.  Whatever the table, a result of [send_mipi_cmds] is 0 or the
    negative status of the write it stopped at, which is then the last call
    in the trace: the byte count a successful write returns is never passed
    on.  (The NULL table gives [-EFAULT] with no call at all.) *)
Theorem send_mipi_cmds_result (a : list panel_cmd) (w : world) (r : Z) :
  fst (send_mipi_cmds env (Some a) w) = Some r ->
  r = 0 \/
  (r < 0 /\ r = env (trace (snd (send_mipi_cmds env (Some a) w))) /\
   exists before addr payload,
     trace (snd (send_mipi_cmds env (Some a) w)) =
     before ++ [mipi_dsi_dcs_write addr payload]).
Proof.
  cbn [send_mipi_cmds].
  revert w. induction a as [|c a IH]; intros w; cbn [send_mipi_cmds_from].
  - discriminate.
  - destruct (len c =? 0).
    { cbn. intros [= <-]. now left. }
    destruct (cmd_operands c) as [[[addr payload] d0]|]; [|discriminate].
    unfold bind, call, emit. cbn [pinfo trace].
    destruct (Z.ltb_spec (env (trace w ++ [mipi_dsi_dcs_write addr payload])) 0)
      as [Hneg|_].
    + cbn. intros [= <-]. right. split; [exact Hneg|]. split; [reflexivity|].
      now exists (trace w), addr, payload.
    + apply IH.
Qed.

(** X17.  A table without the zero-length sentinel is not detected: with
    well-formed entries and succeeding writes, [send_mipi_cmds] sends every
    entry and then reads the entry past the end of the table. *)
Theorem send_mipi_cmds_without_sentinel (batch : list panel_cmd) (w : world) :
  Forall well_formed batch ->
  writes_succeed env (trace w) batch ->
  send_mipi_cmds env (Some batch) w =
  (None, {| pinfo := pinfo w; trace := trace w ++ transmission batch |}).
Proof.
  intros Hwf Hok. cbn [send_mipi_cmds].
  rewrite <- (app_nil_r batch) at 1.
  rewrite send_mipi_cmds_from_app by assumption. reflexivity.
Qed.

(** X18.  A one-byte entry is neither a terminator nor skipped: its length
    is not 0 and not 2, so [len - 2] wraps around in [size_t] and the write
    is handed a payload far larger than the entry; the model stops there,
    before any call, with the behaviour undefined. *)
Theorem send_mipi_cmds_one_byte_entry (c : panel_cmd) (rest : list panel_cmd)
    (w : world) :
  len c = 1 ->
  Z.of_nat (length (data c)) < 2 ^ 64 ->
  send_mipi_cmds env (Some (c :: rest)) w = (None, w).
Proof.
  intros Hlen Hdata. cbn [send_mipi_cmds send_mipi_cmds_from]. rewrite Hlen.
  cbn [Z.eqb]. unfold cmd_operands. rewrite Hlen.
  destruct (data c) as [|d0 [|d1 tl]]; try reflexivity.
  cbn [Z.eqb]. unfold size_t.
  change ((1 - 2) mod 2 ^ 64) with (2 ^ 64 - 1).
  cbn [length] in Hdata.
  destruct (Z.leb_spec (2 ^ 64 - 1) (Z.of_nat (length tl))); [lia|reflexivity].
Qed.

(** ** Backlight read-back *)

(** X19.  [lg_panel_backlight_get_brightness] passes a negative status on
    unchanged; otherwise it returns the low byte of what the panel
    reported, a value from 0 to 255, never above the [max_brightness] that
    [lg_panel_backlight_init] registers. *)
Theorem lg_panel_backlight_get_brightness_range (ret stored : Z) (p : panel_info) :
  let r := lg_panel_backlight_get_brightness ret stored in
  (ret < 0 -> r = ret) /\
  (0 <= ret ->
   r = stored mod 256 /\
   0 <= r <= max_brightness (lg_panel_backlight_init p)).
Proof.
  cbv zeta. unfold lg_panel_backlight_get_brightness, u16.
  destruct (Z.ltb_spec ret 0); split; intros; try lia; try reflexivity.
  change 0xff with (Z.ones 8). rewrite Z.land_ones by lia.
  assert (Hmod : (stored mod 2 ^ 16) mod 2 ^ 8 = stored mod 256).
  { apply Z.mod_mod_divide. exists (2 ^ 8). reflexivity. }
  rewrite Hmod. cbn [max_brightness lg_panel_backlight_init].
  pose proof (Z.mod_pos_bound stored 256). lia.
Qed.


(** ** Backlight updates and the lifecycle *)

Lemma lg_panel_backlight_update_status_pinfo (bl : backlight_properties) (w : world) :
  exists v,
    pinfo (snd (lg_panel_backlight_update_status env bl w)) =
    set_brightness v (pinfo w) /\
    forall w', pinfo (snd (lg_panel_backlight_update_status env bl w')) =
               set_brightness v (pinfo w').
Proof.
  unfold lg_panel_backlight_update_status, bind, call, gets, modify.
  destruct (negb (props_power bl =? FB_BLANK_UNBLANK)
            || negb (props_fb_blank bl =? FB_BLANK_UNBLANK)
            || negb (Z.land (props_state bl) BL_CORE_FBBLANK =? 0));
    cbn [snd pinfo trace]; eexists; split; reflexivity.
Qed.

(** X20.  A backlight update writes [pinfo->brightness] and nothing else:
    the lifecycle flags, [max_brightness] and the settle delay are as
    before, whether or not the panel is prepared.  Of two updates in a row
    the second alone decides the stored brightness. *)
Theorem backlight_update_last_request_wins (bl1 bl2 : backlight_properties)
    (w : world) :
  let w1 := snd (lg_panel_backlight_update_status env bl1 w) in
  let w2 := snd (lg_panel_backlight_update_status env bl2 w1) in
  prepared (pinfo w1) = prepared (pinfo w) /\
  enabled (pinfo w1) = enabled (pinfo w) /\
  first_enable (pinfo w1) = first_enable (pinfo w) /\
  max_brightness (pinfo w1) = max_brightness (pinfo w) /\
  init_delay_us (pinfo w1) = init_delay_us (pinfo w) /\
  pinfo w2 = pinfo (snd (lg_panel_backlight_update_status env bl2 w)).
Proof.
  cbv zeta.
  destruct (lg_panel_backlight_update_status_pinfo bl1 w) as (v1 & H1 & _).
  destruct (lg_panel_backlight_update_status_pinfo bl2 w) as (v2 & H2 & H2').
  rewrite H2', H2, H1. repeat split.
Qed.


(** ** The result of [lg_panel_prepare] in any state *)

Lemma lg_panel_prepare_rest_result (w : world) :
  let out := lg_panel_prepare_rest env w in
  (fst out = 0 /\ prepared (pinfo (snd out)) = true) \/
  (fst out < 0 /\ pinfo (snd out) = pinfo w).
Proof.
  cbv zeta. destruct (prepared (pinfo w)) eqn:Hp.
  - assert (E : lg_panel_prepare_rest env w = (0, w)).
    { unfold lg_panel_prepare_rest. unfold bind at 1. unfold gets at 1.
      now rewrite Hp. }
    rewrite E. left. auto.
  - destruct (lg_panel_prepare_rest_spec env w Hp) as (new & _ & _ & Hcases).
    destruct Hcases as [(H0 & _ & Hpi)|(Hneg & _ & Hpi & _)].
    + left. split; [exact H0|]. now rewrite Hpi.
    + right. auto.
Qed.

(** X21.  In any state and whatever the hardware answers,
    [lg_panel_prepare] returns 0 or a negative value, never a positive one;
    it returns 0 only with [prepared] set, and on a negative result
    [prepared] is as it was. *)
Theorem lg_panel_prepare_result (w : world) :
  let out := lg_panel_prepare env w in
  (fst out = 0 /\ prepared (pinfo (snd out)) = true) \/
  (fst out < 0 /\ prepared (pinfo (snd out)) = prepared (pinfo w)).
Proof.
  cbv zeta. destruct (first_enable (pinfo w)) eqn:Hfe.
  - set (w0 := {| pinfo := set_first_enable false (pinfo w); trace := trace w |}).
    pose proof (pinfo_property_panel_reset_at_beginning
                  (fun p => p = pinfo w0) w0 eq_refl) as Hpi.
    cbv beta in Hpi.
    assert (E : lg_panel_prepare env w =
                (let (err, w1) := panel_reset_at_beginning env w0 in
                 if err <? 0 then (err, w1) else lg_panel_prepare_rest env w1)).
    { unfold lg_panel_prepare. unfold bind at 1. unfold gets at 1. rewrite Hfe.
      unfold bind at 1. unfold modify at 1. fold w0. unfold bind.
      destruct (panel_reset_at_beginning env w0) as [err w1].
      destruct (err <? 0); reflexivity. }
    rewrite E. destruct (panel_reset_at_beginning env w0) as [err w1].
    cbn [snd] in Hpi.
    destruct (Z.ltb_spec err 0) as [Hneg|_].
    + right. cbn [fst snd]. split; [exact Hneg|]. now rewrite Hpi.
    + destruct (lg_panel_prepare_rest_result w1) as [H|[Hneg Hp1]]; [now left|].
      right. split; [exact Hneg|]. now rewrite Hp1, Hpi.
  - rewrite lg_panel_prepare_not_first by assumption.
    destruct (lg_panel_prepare_rest_result w) as [H|[Hneg Hp1]]; [now left|].
    right. split; [exact Hneg|]. now rewrite Hp1.
Qed.

End MoreProperties.

(** * The further properties on concrete panels *)

Lemma env_ok_convention : status_convention env_ok.
Proof. intros hist e. unfold env_ok. destruct e; try exact I; lia. Qed.

Lemma lg_panel_prepare_calls_prefix_witness :
  let env := env_fail_at 16 (-5) in
  let out := lg_panel_prepare (hdr := linux_headers) env panel_probe in
  let calls := lg_panel_prepare_calls (hdr := linux_headers)
                 (init_delay_us (pinfo panel_probe)) in
  status_convention env /\
  first_enable (pinfo panel_probe) = false /\
  prepared (pinfo panel_probe) = false /\
  exists n tl,
    (2 <= n <= 64)%nat /\
    trace (snd out) = trace panel_probe ++ firstn n calls ++ tl /\
    ((fst out = 0 /\ n = 64%nat /\ tl = [] /\
      pinfo (snd out) = set_prepared true (pinfo panel_probe)) \/
     (fst out < 0 /\ (tl = [] \/ tl = [gpiod_set_value 1]) /\
      pinfo (snd out) = pinfo panel_probe)).
Proof.
  cbv zeta. split; [apply env_fail_at_convention; lia|].
  split; [reflexivity|]. split; [reflexivity|].
  apply (lg_panel_prepare_calls_prefix (hdr := linux_headers)
           (env_fail_at 16 (-5)) panel_probe).
  - apply env_fail_at_convention; lia.
  - reflexivity.
  - reflexivity.
Defined.

Lemma lg_panel_prepare_success_witness :
  let calls := lg_panel_prepare_calls (hdr := linux_headers)
                 (init_delay_us (pinfo panel_probe)) in
  status_convention env_ok /\
  failures env_ok (trace panel_probe) calls = [] /\
  lg_panel_prepare (hdr := linux_headers) env_ok panel_probe =
  (0, {| pinfo := set_prepared true (pinfo panel_probe);
         trace := trace panel_probe ++ calls |}).
Proof.
  cbv zeta.
  assert (Hc : status_convention env_ok) by exact env_ok_convention.
  assert (Hf : failures env_ok (trace panel_probe)
                 (lg_panel_prepare_calls (hdr := linux_headers)
                    (init_delay_us (pinfo panel_probe))) = [])
    by (vm_compute; reflexivity).
  split; [exact Hc|]. split; [exact Hf|].
  exact (proj1 (lg_panel_prepare_success (hdr := linux_headers) env_ok
                  panel_probe Hc eq_refl eq_refl) Hf).
Defined.

Lemma lg_panel_prepare_powers_on_first_witness :
  let new := lg_panel_prepare_calls (hdr := linux_headers) 5000 in
  let e := mipi_dsi_dcs_set_tear_on 0 in
  trace (snd (lg_panel_prepare (hdr := linux_headers) env_ok panel_probe)) =
    trace panel_probe ++ new /\
  In e new /\
  is_dcs e = true /\
  exists rest,
    new = usleep_range (init_delay_us (pinfo panel_probe))
            (init_delay_us (pinfo panel_probe))
          :: lg_panel_power_on_calls ++ rest.
Proof.
  cbv zeta.
  assert (Hc : status_convention env_ok) by exact env_ok_convention.
  assert (Ht : trace (snd (lg_panel_prepare (hdr := linux_headers) env_ok
                             panel_probe)) =
               trace panel_probe
               ++ lg_panel_prepare_calls (hdr := linux_headers) 5000)
    by (vm_compute; reflexivity).
  assert (Hin : In (mipi_dsi_dcs_set_tear_on 0)
                   (lg_panel_prepare_calls (hdr := linux_headers) 5000)).
  { do 10 right. left. reflexivity. }
  split; [exact Ht|]. split; [exact Hin|]. split; [reflexivity|].
  exact (lg_panel_prepare_powers_on_first (hdr := linux_headers) env_ok
           panel_probe _ _ Hc eq_refl eq_refl Ht Hin eq_refl).
Defined.

Lemma failed_prepare_is_retried_from_power_on_witness :
  let env := env_fail_at 16 (-5) in
  fst (lg_panel_prepare (hdr := linux_headers) env panel_probe) < 0 /\
  prepared (pinfo failed_panel) = false /\
  exists rest,
    trace (snd (lg_panel_prepare (hdr := linux_headers) env failed_panel)) =
    trace failed_panel
    ++ usleep_range 5000 5000 :: regulator_set_load 0 1700000 :: rest.
Proof.
  cbv zeta.
  assert (Hneg : fst (lg_panel_prepare (hdr := linux_headers)
                        (env_fail_at 16 (-5)) panel_probe) < 0)
    by (vm_compute; reflexivity).
  split; [exact Hneg|].
  apply (failed_prepare_is_retried_from_power_on (hdr := linux_headers)
           (env_fail_at 16 (-5)) panel_probe).
  - apply env_fail_at_convention; lia.
  - reflexivity.
  - reflexivity.
  - exact Hneg.
Defined.

(** The bulk enable of the one-time reset fails with -5. *)
Lemma failed_first_reset_is_not_retried_witness :
  let env := env_fail_at 2 (-5) in
  first_enable (pinfo first_enable_panel) = true /\
  lg_panel_prepare (hdr := linux_headers) env first_enable_panel =
  (-5, {| pinfo := pinfo panel_probe;
          trace := [regulator_set_load 0 1700000; regulator_bulk_enable] |}) /\
  lg_panel_prepare (hdr := linux_headers) env
    (snd (lg_panel_prepare (hdr := linux_headers) env first_enable_panel)) =
  lg_panel_prepare_rest (hdr := linux_headers) env
    (snd (lg_panel_prepare (hdr := linux_headers) env first_enable_panel)).
Proof.
  cbv zeta. split; [reflexivity|].
  destruct (failed_first_reset_is_not_retried (hdr := linux_headers)
              (env_fail_at 2 (-5)) first_enable_panel eq_refl)
    as (Heq & _ & Hnext).
  - vm_compute. reflexivity.
  - split; [|exact Hnext]. rewrite Heq. vm_compute. reflexivity.
Defined.

Lemma prepared_panel_is_inert_witness :
  run_calls (hdr := linux_headers) env_ok
    [unprepare; prepare; disable; prepare] prepared_panel = prepared_panel.
Proof.
  apply (prepared_panel_is_inert (hdr := linux_headers) env_ok prepared_panel).
  - vm_compute. reflexivity.
  - vm_compute. reflexivity.
  - intros [H|[H|[H|[H|[]]]]]; discriminate H.
Defined.

Lemma reset_line_is_never_left_low_witness :
  reset_line (Some 1) (trace panel_probe) = Some 1 /\
  reset_line (Some 1)
    (trace (run_calls (hdr := linux_headers) (env_fail_at 3 (-5))
              [prepare; enable; prepare] panel_probe)) = Some 1.
Proof.
  split; [reflexivity|].
  exact (reset_line_is_never_left_low (hdr := linux_headers)
           (env_fail_at 3 (-5)) panel_probe [prepare; enable; prepare] eq_refl).
Defined.

Lemma send_mipi_cmds_result_witness :
  fst (send_mipi_cmds (hdr := linux_headers) (env_fail_at 5 (-5))
         (Some lg_sw49410_rev1_on_cmds_1) panel_probe) = Some (-5) /\
  (-5 = 0 \/
   (-5 < 0 /\
    -5 = env_fail_at 5 (-5)
           (trace (snd (send_mipi_cmds (hdr := linux_headers) (env_fail_at 5 (-5))
                          (Some lg_sw49410_rev1_on_cmds_1) panel_probe))) /\
    exists before addr payload,
      trace (snd (send_mipi_cmds (hdr := linux_headers) (env_fail_at 5 (-5))
                    (Some lg_sw49410_rev1_on_cmds_1) panel_probe)) =
      before ++ [mipi_dsi_dcs_write addr payload])).
Proof.
  assert (H : fst (send_mipi_cmds (hdr := linux_headers) (env_fail_at 5 (-5))
                     (Some lg_sw49410_rev1_on_cmds_1) panel_probe) = Some (-5))
    by (vm_compute; reflexivity).
  split; [exact H|].
  exact (send_mipi_cmds_result (hdr := linux_headers) (env_fail_at 5 (-5))
           lg_sw49410_rev1_on_cmds_1 panel_probe (-5) H).
Defined.

Lemma send_mipi_cmds_without_sentinel_witness :
  let batch := firstn 5 lg_sw49410_rev1_on_cmds_1 in
  Forall well_formed batch /\
  writes_succeed env_ok (trace panel_probe) batch /\
  send_mipi_cmds (hdr := linux_headers) env_ok (Some batch) panel_probe =
  (None, {| pinfo := pinfo panel_probe;
            trace := trace panel_probe ++ transmission batch |}).
Proof.
  cbv zeta.
  assert (Hwf : Forall well_formed (firstn 5 lg_sw49410_rev1_on_cmds_1)).
  { repeat constructor; cbn; lia. }
  assert (Hok : writes_succeed env_ok (trace panel_probe)
                  (firstn 5 lg_sw49410_rev1_on_cmds_1)).
  { cbn. unfold env_ok. repeat split; lia. }
  split; [exact Hwf|]. split; [exact Hok|].
  exact (send_mipi_cmds_without_sentinel (hdr := linux_headers) env_ok
           (firstn 5 lg_sw49410_rev1_on_cmds_1) panel_probe Hwf Hok).
Defined.

Lemma send_mipi_cmds_one_byte_entry_witness :
  let c := {| len := 1; data := [x11] |} in
  len c = 1 /\
  Z.of_nat (length (data c)) < 2 ^ 64 /\
  send_mipi_cmds (hdr := linux_headers) env_ok (Some [c; sentinel]) panel_probe =
  (None, panel_probe).
Proof.
  cbv zeta. split; [reflexivity|]. split; [reflexivity|].
  apply (send_mipi_cmds_one_byte_entry (hdr := linux_headers) env_ok
           {| len := 1; data := [x11] |} [sentinel] panel_probe);
    reflexivity.
Defined.

(** A blanked device asking for brightness 100, the stored brightness at 0:
    [lg_panel_enable] unblanks the device, stores and sends 100, and, the
    write failing with -5, returns -5 with [enabled] still clear. *)
Example enable_goes_through_the_backlight_callback :
  let w := {| pinfo := set_brightness 0 (set_backlight powerdown_100 (pinfo panel_probe));
              trace := [] |} in
  let out := lg_panel_enable (hdr := linux_headers) (env_fail_at 1 (-5)) w in
  fst out = -5 /\
  trace (snd out) = [mipi_dsi_dcs_set_display_brightness 100] /\
  brightness (pinfo (snd out)) = 100 /\
  props_power (backlight (pinfo (snd out))) = 0 /\
  enabled (pinfo (snd out)) = false.
Proof. vm_compute. repeat split. Qed.

Lemma lg_panel_enable_outcome_witness :
  enabled (pinfo panel_probe) = false /\
  trace (snd (lg_panel_enable (hdr := linux_headers) env_ok panel_probe)) =
    trace panel_probe ++ [mipi_dsi_dcs_set_display_brightness 255] /\
  brightness (pinfo (snd (lg_panel_enable (hdr := linux_headers) env_ok panel_probe))) = 255 /\
  prepared (pinfo (snd (lg_panel_enable (hdr := linux_headers) env_ok panel_probe))) = false.
Proof.
  split; [reflexivity|].
  destruct (lg_panel_enable_outcome (hdr := linux_headers) env_ok panel_probe)
    as [_ H].
  destruct (H eq_refl) as (_ & Ht & Hb & _ & _ & _ & _ & Hp & _).
  split; [exact Ht|]. split; [exact Hb|exact Hp].
Defined.

Lemma lifecycle_keeps_brightness_witness :
  ~ In enable [prepare; unprepare; disable; prepare] /\
  brightness (pinfo (run_calls (hdr := linux_headers) (env_fail_at 20 (-5))
                       [prepare; unprepare; disable; prepare] panel_probe)) =
    brightness (pinfo panel_probe) /\
  backlight (pinfo (run_calls (hdr := linux_headers) (env_fail_at 20 (-5))
                      [prepare; unprepare; disable; prepare] panel_probe)) =
    backlight (pinfo panel_probe).
Proof.
  assert (Hne : ~ In enable [prepare; unprepare; disable; prepare])
    by (intros [H|[H|[H|[H|[]]]]]; discriminate H).
  split; [exact Hne|].
  exact (proj2 (proj2 (lifecycle_keeps_brightness (hdr := linux_headers)
                         (env_fail_at 20 (-5)) panel_probe
                         [prepare; unprepare; disable; prepare])) Hne).
Defined.
